(** * House expense manager: aggregation view-model, expense query,
      entry form and month selector, embedded from the TypeScript and SQL
      sources. *)

From Stdlib Require Import ZArith Lia Ascii.
From Stdlib Require Import Floats.PrimFloat.
From stdpp Require Import base option list gmap strings sorting.

Local Open Scope Z_scope.

(* ===================================================================== *)
(** * Part I: definitions *)
(* ===================================================================== *)

(** ** JavaScript numbers

    The view-model only adds amounts, starts its sums at [0] and tests a
    running sum with [x || 0].  These three operations are the interface;
    the program is embedded once, over any carrier that provides them. *)

Class JSNumber (number : Type) := {
  zero : number;
  add : number → number → number;
  (** [ToBoolean]: false exactly on the values that [x || 0] replaces. *)
  truthy : number → bool;
}.

(** The carrier of the running program: IEEE-754 binary64, round to nearest
    even.  [ToBoolean] is false on [+0], [-0] and [NaN]. *)
Definition is_nan (x : float) : bool := negb (PrimFloat.eqb x x).

#[export] Instance double_number : JSNumber float := {|
  zero := 0%float;
  add := PrimFloat.add;
  truthy x := negb (PrimFloat.eqb x 0%float || is_nan x);
|}.

(** The carrier of the [DECIMAL(10,2)] column of the schema: an amount is
    an exact count of hundredths. *)
#[export] Instance cents_number : JSNumber Z := {|
  zero := 0;
  add := Z.add;
  truthy x := negb (x =? 0);
|}.

(** Addition is exact when it is associative and commutative and [0] is
    neutral. *)
Class ExactAddition (number : Type) `{JSNumber number} : Prop := {
  add_assoc' : ∀ x y z : number, add x (add y z) = add (add x y) z;
  add_comm' : ∀ x y : number, add x y = add y x;
  add_zero_l : ∀ x : number, add zero x = x;
}.

(** Arithmetic is exact when addition is, and [0] is the only falsy
    number. *)
Class ExactNumber (number : Type) `{JSNumber number} : Prop := {
  exact_addition :: ExactAddition number;
  falsy_zero : ∀ x : number, truthy x = false → x = zero;
}.

(** ** Expense records (interface [Expense] of the Dashboard) *)

Record Expense (number : Type) := mkExpense {
  id : string;
  amount : number;
  category : string;
  description : string;
  date : string;
  created_at : string;
}.
Arguments mkExpense {number}.
Arguments id {number}.
Arguments amount {number}.
Arguments category {number}.
Arguments description {number}.
Arguments date {number}.
Arguments created_at {number}.

(** ** Aggregation view-model *)

Section aggregation.
Context {number : Type} `{JSNumber number}.

(** [expenses.reduce((sum, expense) => sum + expense.amount, 0)] *)
Definition totalExpenses (expenses : list (Expense number)) : number :=
  fold_left (λ sum expense, add sum (amount expense)) expenses zero.

(** [acc[k] || 0]: a missing key reads [undefined], which is falsy. *)
Definition or_zero (v : option number) : number :=
  match v with
  | Some x => if truthy x then x else zero
  | None => zero
  end.

(** The reducer of [expensesByCategory]:
    [acc[expense.category] = (acc[expense.category] || 0) + expense.amount]. *)
Definition by_category_step (acc : gmap string number)
    (expense : Expense number) : gmap string number :=
  <[category expense := add (or_zero (acc !! category expense)) (amount expense)]> acc.

Definition expensesByCategory (expenses : list (Expense number))
    : gmap string number :=
  fold_left by_category_step expenses ∅.

(** The sum of a list of amounts written as the usual recursive sum. *)
Definition sum_amounts (expenses : list (Expense number)) : number :=
  foldr (λ expense s, add (amount expense) s) zero expenses.

(** The sum of the values held by a per-category mapping. *)
Definition sum_values (m : gmap string number) : number :=
  map_fold (λ _ v s, add s v) zero m.

(** The records of one category, in list order. *)
Definition of_category (c : string) (expenses : list (Expense number))
    : list (Expense number) :=
  filter (λ e, category e = c) expenses.

(** The running sums [0 + a1], [0 + a1 + a2], ... of a list. *)
Fixpoint running_sums (acc : number) (expenses : list (Expense number))
    : list number :=
  match expenses with
  | [] => []
  | e :: rest => add acc (amount e) :: running_sums (add acc (amount e)) rest
  end.

(** No running sum is a falsy value other than [0] (for doubles: none is
    [NaN] or [-0]). *)
Definition sums_survive_or (expenses : list (Expense number)) : Prop :=
  Forall (λ v, truthy v = false → v = zero) (running_sums zero expenses).
End aggregation.

(** ** Calendar dates as a [Date] object shows them

    Only the calendar fields that the program reads are kept; the local
    time zone is taken to be UTC, so that [getMonth] and [toISOString]
    read the same calendar day. *)

Record JSDate := mkDate {
  year : Z;
  (** [getMonth()]: 0 is January, 11 is December. *)
  month : Z;
  (** [getDate()]: 1 to 31. *)
  day : Z;
  (** ["HH:mm:ss.sss"], carried along unchanged. *)
  timeOfDay : string;
}.

Definition isLeapYear (y : Z) : bool :=
  (y mod 4 =? 0) && (negb (y mod 100 =? 0) || (y mod 400 =? 0)).

Definition daysInMonth (y m : Z) : Z :=
  if m =? 1 then (if isLeapYear y then 29 else 28)
  else if (m =? 3) || (m =? 5) || (m =? 8) || (m =? 10) then 30
  else 31.

Definition getMonth (d : JSDate) : Z := month d.

(** [date.setMonth(m)]: the month may lie outside 0..11, in which case the
    year moves with it ([MakeDay] floors [m / 12]); the day of the month is
    kept, and when the target month is shorter the surplus days run into
    the month after it.  A day of the month is at most 31 and a month has
    at least 28 days, so one carry is all that can happen. *)
Definition setMonth (d : JSDate) (m : Z) : JSDate :=
  let ym := year d + m / 12 in
  let mn := m mod 12 in
  if day d <=? daysInMonth ym mn then mkDate ym mn (day d) (timeOfDay d)
  else
    mkDate (ym + (mn + 1) / 12) ((mn + 1) mod 12)
           (day d - daysInMonth ym mn) (timeOfDay d).

Definition digit (z : Z) : ascii := Ascii.ascii_of_N (Z.to_N (48 + z mod 10)).

Definition pad2 (z : Z) : string :=
  String (digit (z / 10)) (String (digit z) EmptyString).

Definition pad4 (z : Z) : string :=
  String (digit (z / 1000)) (String (digit (z / 100)) (pad2 z)).

(** [toISOString()] for the years 0 to 9999: ["YYYY-MM-DDTHH:mm:ss.sssZ"]. *)
Definition toISOString (d : JSDate) : string :=
  pad4 (year d) +:+ "-" +:+ pad2 (month d + 1) +:+ "-" +:+ pad2 (day d)
  +:+ "T" +:+ timeOfDay d +:+ "Z".

(** [s.slice(0, n)] *)
Definition slice0 (n : nat) (s : string) : string := String.substring 0 n s.

(** [s.split(sep)[0]] for a one-character separator. *)
Fixpoint split_head (sep : ascii) (s : string) : string :=
  match s with
  | EmptyString => EmptyString
  | String c rest =>
      if Ascii.eqb c sep then EmptyString else String c (split_head sep rest)
  end.

(** [new Date().toISOString().slice(0, 7)] *)
Definition isoMonth (now : JSDate) : string := slice0 7 (toISOString now).

(** [new Date().toISOString().split("T")[0]] *)
Definition isoDay (now : JSDate) : string := split_head "T" (toISOString now).

(** The position of a month on the time line. *)
Definition monthIndex (d : JSDate) : Z := 12 * year d + month d.

(** ** Values, requests and events *)

Inductive JSValue (number : Type) :=
  | VNum (n : number)
  | VStr (s : string).
Arguments VNum {number}.
Arguments VStr {number}.

(** The store client's types. *)
Module Supabase.
Record StoreError := mkError { message : string }.

(** What a request resolves to: [{ data, error }]. *)
Record Response (A : Type) := mkResponse {
  data : option A;
  error : option StoreError;
}.
Arguments mkResponse {A}.
Arguments data {A}.
Arguments error {A}.

(** A filter of the query builder: [.gte(column, value)],
    [.lt(column, value)]. *)
Inductive Filter :=
  | gte (column value : string)
  | lt (column value : string).

(** A built query: [.from(t).select(c)] followed by its filters and
    [.order(column, { ascending })]. *)
Record Query := mkQuery {
  from : string;
  select : string;
  filters : list Filter;
  order : option (string * bool);
}.
End Supabase.

(** The calls of a component to its properties. *)
Inductive PropCall :=
  | onExpenseAdded
  | onOpenChange (open : bool).

(** What a handler does besides changing its state, in program order. *)
Inductive Event (number : Type) :=
  | PreventDefault
  | SetState (component name : string)
  | Call (c : PropCall)
  | AuthGetUser
  | AuthSignOut
  | RouterPush (path : string)
  | StoreSelect (q : Supabase.Query)
  | StoreInsert (rows : list (gmap string (JSValue number)))
  | ConsoleError (label : string) (e : Supabase.StoreError).
Arguments PreventDefault {number}.
Arguments SetState {number}.
Arguments Call {number}.
Arguments AuthGetUser {number}.
Arguments AuthSignOut {number}.
Arguments RouterPush {number}.
Arguments StoreSelect {number}.
Arguments StoreInsert {number}.
Arguments ConsoleError {number}.

(** ** Handlers: state passing with a trace

    A handler takes the component state and returns a result, the new
    state and the events it caused.  An [async] function is embedded as
    the part before its [await] (which ends by sending the request) and the
    part after it (which takes the response). *)

Definition Eff (number S A : Type) : Type := S → A * S * list (Event number).

#[export] Instance eff_ret {number S} : MRet (Eff number S) :=
  λ A a st, (a, st, []).

#[export] Instance eff_bind {number S} : MBind (Eff number S) :=
  λ A B k m st,
    let '(a, st1, t1) := m st in
    let '(b, st2, t2) := k a st1 in
    (b, st2, t1 ++ t2).

Definition get {number S} : Eff number S S := λ st, (st, st, []).
Definition modify {number S} (f : S → S) : Eff number S unit :=
  λ st, (tt, f st, []).
Definition emit {number S} (e : Event number) : Eff number S unit :=
  λ st, (tt, st, [e]).

Definition state_of {number S A} (r : A * S * list (Event number)) : S := r.1.2.
Definition trace_of {number S A} (r : A * S * list (Event number))
    : list (Event number) := r.2.

(** Running a list of handlers one after the other. *)
Fixpoint sequence {number S} (hs : list (Eff number S unit)) : Eff number S unit :=
  match hs with
  | [] => mret tt
  | h :: rest => h;; sequence rest
  end.

(** ** The record store: schema, policies and triggers of the SQL script *)

Module Store.
Section store.
Context {number : Type}.

(** Table [expenses]. *)
Record Row := mkRow {
  col_id : string;
  col_user_id : option string;
  col_amount : number;
  col_category : string;
  col_description : string;
  col_date : string;
  col_created_at : string;
  col_updated_at : string;
}.

Record World := mkWorld {
  table : list Row;
  (** [auth.uid()]: [NULL] without a session. *)
  auth_uid : option string;
  (** A fault between client and store, when there is one. *)
  fault : option Supabase.StoreError;
  (** [NOW()] *)
  server_now : string;
  (** [gen_random_uuid()], by the number of identifiers handed out. *)
  gen_random_uuid : nat → string;
}.

(** [auth.uid() = user_id], the condition of all four policies; a
    comparison with [NULL] is not true. *)
Definition own (w : World) (r : Row) : bool :=
  match auth_uid w, col_user_id r with
  | Some u, Some o => bool_decide (u = o)
  | _, _ => false
  end.

(** Function [set_user_id()]: [NEW.user_id = auth.uid(); RETURN NEW;] *)
Definition set_user_id (w : World) (NEW : Row) : Row :=
  mkRow (col_id NEW) (auth_uid w) (col_amount NEW) (col_category NEW)
        (col_description NEW) (col_date NEW) (col_created_at NEW)
        (col_updated_at NEW).

Definition text_of (v : option (JSValue number)) : option string :=
  match v with Some (VStr s) => Some s | _ => None end.

Definition number_of (v : option (JSValue number)) : option number :=
  match v with Some (VNum n) => Some n | _ => None end.

(** The tuple of a request row: the columns it gives, the column
    defaults for [id], [created_at] and [updated_at], and nothing when a
    [NOT NULL] column is missing. *)
Definition tuple_of (w : World) (p : gmap string (JSValue number))
    : option Row :=
  a ← number_of (p !! "amount");
  c ← text_of (p !! "category");
  d ← text_of (p !! "description");
  dt ← text_of (p !! "date");
  Some (mkRow (default (gen_random_uuid w (length (table w))) (text_of (p !! "id")))
              (text_of (p !! "user_id")) a c d dt
              (default (server_now w) (text_of (p !! "created_at")))
              (default (server_now w) (text_of (p !! "updated_at")))).

(** [INSERT] of one row: trigger [set_user_id_trigger] fires before the
    insert, then policy "Users can insert own expenses" checks the row. *)
Definition insert_row (w : World) (p : gmap string (JSValue number))
    : Supabase.StoreError + Row :=
  match tuple_of w p with
  | None => inl (Supabase.mkError "null value violates not-null constraint")
  | Some NEW =>
      let NEW := set_user_id w NEW in
      if own w NEW then inr NEW
      else inl (Supabase.mkError "new row violates row-level security policy")
  end.

(** The rows of a request are inserted together or not at all. *)
Fixpoint insert_rows (w : World) (ps : list (gmap string (JSValue number)))
    : Supabase.StoreError + World :=
  match ps with
  | [] => inr w
  | p :: rest =>
      match insert_row w p with
      | inl e => inl e
      | inr NEW =>
          insert_rows (mkWorld (table w ++ [NEW]) (auth_uid w) (fault w)
                               (server_now w) (gen_random_uuid w)) rest
      end
  end.

Definition insert (w : World) (ps : list (gmap string (JSValue number)))
    : Supabase.Response unit * World :=
  match fault w with
  | Some e => (Supabase.mkResponse None (Some e), w)
  | None =>
      match insert_rows w ps with
      | inl e => (Supabase.mkResponse None (Some e), w)
      | inr w' => (Supabase.mkResponse None None, w')
      end
  end.

(** The text of a column of a row, for the columns that hold text. *)
Definition column_text (column : string) (r : Row) : string :=
  if decide (column = "date") then col_date r
  else if decide (column = "category") then col_category r
  else if decide (column = "description") then col_description r
  else if decide (column = "id") then col_id r
  else if decide (column = "created_at") then col_created_at r
  else if decide (column = "updated_at") then col_updated_at r
  else "".

(** Modelled from the spec: the query service of the store is not part
    of the repository.  Its contract is [query(owner, date-range) →
    ordered record list | error], a half-open range [[start, end)] under
    lexicographic comparison of date strings; so a filter compares the
    text of its column with its value character by character. *)
Definition holds (f : Supabase.Filter) (r : Row) : bool :=
  match f with
  | Supabase.gte c v => String.leb v (column_text c r)
  | Supabase.lt c v => String.ltb (column_text c r) v
  end.

Definition matches (q : Supabase.Query) (r : Row) : bool :=
  forallb (λ f, holds f r) (Supabase.filters q).

(** Modelled from the spec: the order of the result, ["ordered by date
    descending"] for the Dashboard's query.  [r1] may stand before [r2]
    under [.order(column, { ascending })] when their column texts compare
    that way. *)
Definition before (o : string * bool) (r1 r2 : Row) : Prop :=
  if o.2 then String.le (column_text o.1 r1) (column_text o.1 r2)
  else String.le (column_text o.1 r2) (column_text o.1 r1).

#[export] Instance before_dec (o : string * bool) : RelDecision (before o).
Proof. intros r1 r2. unfold before. destruct (o.2); apply _. Defined.

Definition ordered (o : option (string * bool)) (rows : list Row) : list Row :=
  match o with
  | Some o => merge_sort (before o) rows
  | None => rows
  end.

(** The rows a session may read: policy "Users can view own expenses". *)
Definition visible (w : World) : list Row :=
  filter (λ r, Is_true (own w r)) (table w).

Definition selected (w : World) (q : Supabase.Query) : list Row :=
  filter (λ r, Is_true (matches q r)) (visible w).

(** What the Dashboard reads of a row ([select("*")] returns every
    column; interface [Expense] names six of them). *)
Definition to_expense (r : Row) : Expense number :=
  mkExpense (col_id r) (col_amount r) (col_category r) (col_description r)
            (col_date r) (col_created_at r).

(** Modelled from the spec: the answer of the store to a query, a fault
    taking the place of the rows when there is one. *)
Definition run_select (w : World) (q : Supabase.Query)
    : Supabase.Response (list (Expense number)) :=
  match fault w with
  | Some e => Supabase.mkResponse None (Some e)
  | None =>
      Supabase.mkResponse
        (Some (map to_expense (ordered (Supabase.order q) (selected w q))))
        None
  end.
End store.
Arguments Row : clear implicits.
Arguments World : clear implicits.
End Store.

(** ** The Dashboard component *)

(** What the identity provider knows of a user. *)
Record User := mkUser {
  user_id : string;
  email : string;
  full_name : option string;
}.

Module Dashboard.
Section dashboard.
Context {number : Type}.

(** The [useState] cells of the component. *)
Record State := mkState {
  expenses : list (Expense number);
  loading : bool;
  selectedMonth : string;
  showAddDialog : bool;
  user : option User;
}.

(** The state of the first render, at clock reading [now]. *)
Definition initial (now : JSDate) : State :=
  mkState [] true (isoMonth now) false None.

Definition setExpenses (v : list (Expense number)) : Eff number State unit :=
  modify (λ st, mkState v (loading st) (selectedMonth st) (showAddDialog st) (user st));;
  emit (SetState "Dashboard" "expenses").

Definition setLoading (v : bool) : Eff number State unit :=
  modify (λ st, mkState (expenses st) v (selectedMonth st) (showAddDialog st) (user st));;
  emit (SetState "Dashboard" "loading").

Definition setSelectedMonth (v : string) : Eff number State unit :=
  modify (λ st, mkState (expenses st) (loading st) v (showAddDialog st) (user st));;
  emit (SetState "Dashboard" "selectedMonth").

Definition setShowAddDialog (v : bool) : Eff number State unit :=
  modify (λ st, mkState (expenses st) (loading st) (selectedMonth st) v (user st));;
  emit (SetState "Dashboard" "showAddDialog").

Definition setUser (v : option User) : Eff number State unit :=
  modify (λ st, mkState (expenses st) (loading st) (selectedMonth st) (showAddDialog st) v);;
  emit (SetState "Dashboard" "user").

(** [getUser], up to [await supabase.auth.getUser()] and after it. *)
Definition getUser_start : Eff number State unit := emit AuthGetUser.

Definition getUser_resume (u : option User) : Eff number State unit :=
  setUser u.

(** The query that [fetchExpenses] builds for a month. *)
Definition month_query (selectedMonth : string) : Supabase.Query :=
  Supabase.mkQuery "expenses" "*"
    [Supabase.gte "date" (selectedMonth +:+ "-01");
     Supabase.lt "date" (selectedMonth +:+ "-32")]
    (Some ("date", false)).

(** [fetchExpenses], up to the [await] of the query. *)
Definition fetchExpenses_start : Eff number State unit :=
  setLoading true;;
  st ← get;
  emit (StoreSelect (month_query (selectedMonth st))).

(** [fetchExpenses], from the response on: [data || []] on success. *)
Definition fetchExpenses_resume
    (r : Supabase.Response (list (Expense number))) : Eff number State unit :=
  match Supabase.error r with
  | Some e => emit (ConsoleError "Error fetching expenses:" e)
  | None => setExpenses (default [] (Supabase.data r))
  end;;
  setLoading false.

(** [handleSignOut], before and after [await supabase.auth.signOut()]. *)
Definition handleSignOut_start : Eff number State unit := emit AuthSignOut.

Definition handleSignOut_resume : Eff number State unit :=
  emit (RouterPush "/auth/login").

(** The body of [useEffect(..., [selectedMonth])]; neither call is
    awaited. *)
Definition effect : Eff number State unit :=
  getUser_start;; fetchExpenses_start.

(** The dates behind the twelve items of the month selector. *)
Definition monthDates (now : JSDate) : list JSDate :=
  map (λ i, let date := now in setMonth date (getMonth date - i)) (seqZ 0 12).

(** The [value] (and [key]) of each item:
    [Array.from({ length: 12 }, (_, i) => ...)]. *)
Definition monthOptions (now : JSDate) : list string :=
  map (λ date, slice0 7 (toISOString date)) (monthDates now).

(** The properties handed to the entry dialog:
    [onOpenChange={setShowAddDialog} onExpenseAdded={fetchExpenses}]. *)
Definition prop (c : PropCall) : Eff number State unit :=
  match c with
  | onExpenseAdded => fetchExpenses_start
  | onOpenChange open => setShowAddDialog open
  end.

(** What reaches the component. *)
Inductive Input :=
  | Mount
  | SelectMonth (value : string)
  | ClickAddExpense
  | ClickSignOut
  | DialogCalls (c : PropCall)
  | UserResolved (u : option User)
  | ExpensesResolved (r : Supabase.Response (list (Expense number)))
  | SignedOut.

(** The effect runs after the first render and after a render in which
    [selectedMonth] differs from the render before. *)
Definition step (i : Input) : Eff number State unit :=
  match i with
  | Mount => effect
  | SelectMonth value =>
      st ← get;
      setSelectedMonth value;;
      if decide (value = selectedMonth st) then mret tt else effect
  | ClickAddExpense => setShowAddDialog true
  | ClickSignOut => handleSignOut_start
  | DialogCalls c => prop c
  | UserResolved u => getUser_resume u
  | ExpensesResolved r => fetchExpenses_resume r
  | SignedOut => handleSignOut_resume
  end.

Definition run (inputs : list Input) : Eff number State unit :=
  sequence (map step inputs).

(** An input that makes the effect run in state [st]. *)
Definition runs_effect (st : State) (i : Input) : bool :=
  match i with
  | Mount => true
  | SelectMonth value =>
      if decide (value = selectedMonth st) then false else true
  | _ => false
  end.
End dashboard.
Arguments State : clear implicits.
Arguments Input : clear implicits.
End Dashboard.

(** ** The entry dialog *)

Module AddExpenseDialog.
Section dialog.
Context {number : Type}.
(** [Number.parseFloat] *)
Variable parseFloat : string → number.

(** The [useState] cells of the component. *)
Record State := mkState {
  amount : string;
  category : string;
  description : string;
  date : string;
  loading : bool;
  error : string;
}.

(** The state of the first render, at clock reading [now]. *)
Definition initial (now : JSDate) : State :=
  mkState "" "" "" (isoDay now) false "".

Definition setAmount (v : string) : Eff number State unit :=
  modify (λ st, mkState v (category st) (description st) (date st) (loading st) (error st));;
  emit (SetState "AddExpenseDialog" "amount").

Definition setCategory (v : string) : Eff number State unit :=
  modify (λ st, mkState (amount st) v (description st) (date st) (loading st) (error st));;
  emit (SetState "AddExpenseDialog" "category").

Definition setDescription (v : string) : Eff number State unit :=
  modify (λ st, mkState (amount st) (category st) v (date st) (loading st) (error st));;
  emit (SetState "AddExpenseDialog" "description").

Definition setDate (v : string) : Eff number State unit :=
  modify (λ st, mkState (amount st) (category st) (description st) v (loading st) (error st));;
  emit (SetState "AddExpenseDialog" "date").

Definition setLoading (v : bool) : Eff number State unit :=
  modify (λ st, mkState (amount st) (category st) (description st) (date st) v (error st));;
  emit (SetState "AddExpenseDialog" "loading").

Definition setError (v : string) : Eff number State unit :=
  modify (λ st, mkState (amount st) (category st) (description st) (date st) (loading st) v);;
  emit (SetState "AddExpenseDialog" "error").

(** The object literal handed to [insert]:
    [{ amount: Number.parseFloat(amount), category, description, date }]. *)
Definition payload (st : State) : gmap string (JSValue number) :=
  <["amount" := VNum (parseFloat (amount st))]>
    (<["category" := VStr (category st)]>
       (<["description" := VStr (description st)]>
          (<["date" := VStr (date st)]> ∅))).

(** [handleSubmit], up to the [await] of the insert; [supabase] tells
    whether the client exists (both environment variables are set). *)
Definition handleSubmit_start (supabase : bool) : Eff number State unit :=
  emit PreventDefault;;
  if negb supabase then
    setError "Application is not properly configured. Please contact support."
  else
    setLoading true;;
    setError "";;
    st ← get;
    emit (StoreInsert [payload st]).

(** [handleSubmit], from the response on, at clock reading [now]. *)
Definition handleSubmit_resume (now : JSDate) (r : Supabase.Response unit)
    : Eff number State unit :=
  match Supabase.error r with
  | Some e => setError (Supabase.message e)
  | None =>
      setAmount "";;
      setCategory "";;
      setDescription "";;
      setDate (isoDay now);;
      emit (Call onExpenseAdded);;
      emit (Call (onOpenChange false))
  end;;
  setLoading false.

(** A whole submission with a configured client, the store answering
    [r]. *)
Definition handleSubmit (now : JSDate) (r : Supabase.Response unit)
    : Eff number State unit :=
  handleSubmit_start true;; handleSubmit_resume now r.
End dialog.
End AddExpenseDialog.

(** ** The page: the Dashboard with its entry dialog *)

Section page.
Context {number : Type}.

Record Page := mkPage {
  dashboard : Dashboard.State number;
  dialog : AddExpenseDialog.State;
}.

(** A handler of the Dashboard run inside the page. *)
Definition in_dashboard (h : Eff number (Dashboard.State number) unit)
    : Eff number Page unit :=
  λ pg, let '(_, d, t) := h (dashboard pg) in (tt, mkPage d (dialog pg), t).

(** An event of the dialog as the page sees it: a call to a property
    runs the Dashboard's handler for it. *)
Definition deliver (e : Event number) : Eff number Page unit :=
  match e with
  | Call c => emit e;; in_dashboard (Dashboard.prop c)
  | _ => emit e
  end.

(** A handler of the dialog run inside the page. *)
Definition in_dialog (h : Eff number AddExpenseDialog.State unit)
    : Eff number Page unit :=
  λ pg, let '(_, f, t) := h (dialog pg) in
        sequence (map deliver t) (mkPage (dashboard pg) f).
End page.
Arguments Page : clear implicits.

(** ** The page and the store together *)

Section wired.
Context {number : Type}.

(** [fetchExpenses] with the store [w] answering its query. *)
Definition fetchExpenses (w : Store.World number)
    : Eff number (Dashboard.State number) unit :=
  Dashboard.fetchExpenses_start;;
  st ← get;
  Dashboard.fetchExpenses_resume
    (Store.run_select w (Dashboard.month_query (Dashboard.selectedMonth st))).

(** A date string lies in [[month-01, month-32)]. *)
Definition within_month (month d : string) : bool :=
  String.leb (month +:+ "-01") d && String.ltb d (month +:+ "-32").

(** Later dates first. *)
Definition date_descending (e1 e2 : Expense number) : Prop :=
  String.le (date e2) (date e1).

Definition is_getUser (e : Event number) : bool :=
  match e with AuthGetUser => true | _ => false end.

(** How often a trace asks the identity provider for the user. *)
Definition getUser_calls (t : list (Event number)) : nat :=
  length (filter (λ e, Is_true (is_getUser e)) t).

(** How often the effect of the Dashboard runs over a list of inputs,
    [month] being the selected month before them. *)
Fixpoint effect_runs (month : string) (inputs : list (Dashboard.Input number))
    : nat :=
  match inputs with
  | [] => 0%nat
  | Dashboard.Mount :: rest => S (effect_runs month rest)
  | Dashboard.SelectMonth value :: rest =>
      if decide (value = month) then effect_runs value rest
      else S (effect_runs value rest)
  | _ :: rest => effect_runs month rest
  end.
End wired.

(** ** Sample record sets

    Amounts are the doubles nearest to 0.10, 0.20 and 0.30, as a JSON
    response delivers them to the Dashboard. *)

Definition d010 : float := 0x1.999999999999ap-4%float.
Definition d020 : float := 0x1.999999999999ap-3%float.
Definition d030 : float := 0x1.3333333333333p-2%float.

Definition sample (c : string) {number : Type} (a : number) (d : string)
    : Expense number :=
  mkExpense "" a c "" d "".

Definition groceries_run : list (Expense float) :=
  [sample "groceries" d010 "2024-01-03"; sample "groceries" d020 "2024-01-10";
   sample "groceries" d030 "2024-01-17"].

Definition mixed_run : list (Expense float) :=
  [sample "groceries" d030 "2024-01-03"; sample "water" d020 "2024-01-10";
   sample "groceries" d010 "2024-01-17"].

Definition cents_run : list (Expense Z) :=
  [sample "groceries" 4550 "2024-03-15"; sample "water" 1230 "2024-03-16";
   sample "groceries" 1025 "2024-03-17"].

(** A household's table in whole cents: three rows of user ["ana"] around
    the turn of January 2024 and one row of another user. *)
Definition january_table : list (Store.Row Z) :=
  [Store.mkRow "r1" (Some "ana") 4550 "groceries" "Weekly shop" "2024-01-31" "" "";
   Store.mkRow "r2" (Some "ana") 1230 "water" "Water bill" "2024-02-01" "" "";
   Store.mkRow "r3" (Some "ben") 9900 "gas" "Heating" "2024-01-15" "" "";
   Store.mkRow "r4" (Some "ana") 2000 "electricity" "Power" "2024-01-01" "" ""].

Definition january_world : Store.World Z :=
  Store.mkWorld january_table (Some "ana") None "2024-02-02T08:00:00Z" (λ _, "r5").

Definition january_dashboard : Dashboard.State Z :=
  Dashboard.mkState [] true "2024-01" false None.

(** Clock readings. *)
Definition mid_march : JSDate := mkDate 2024 2 15 "09:30:00.000".
Definition end_of_march : JSDate := mkDate 2024 2 31 "09:30:00.000".

(** A Dashboard that shows one expense of March, and a failed response. *)
Definition march_dashboard : Dashboard.State Z :=
  Dashboard.mkState [sample "groceries" 4550 "2024-03-15"] false "2024-03" false None.

Definition store_down : Supabase.Response (list (Expense Z)) :=
  Supabase.mkResponse None (Some (Supabase.mkError "Failed to fetch")).

(** The entry of the specification: 45.50 of groceries on 2024-03-15. *)
Definition weekly_shop : AddExpenseDialog.State :=
  AddExpenseDialog.mkState "45.50" "groceries" "Weekly shop" "2024-03-15" false "".

Definition open_page : Page Z :=
  mkPage (Dashboard.mkState [] false "2024-03" true None) weekly_shop.

(** ** More of the components: calendar validity, what is rendered,
    the other statements of the SQL script *)

(** A calendar date that exists. *)
Definition validDate (d : JSDate) : Prop :=
  0 ≤ month d ≤ 11 ∧ 1 ≤ day d ≤ daysInMonth (year d) (month d).

Section views.
Context {number : Type}.

(** The body of the card "Recent Expenses":
    [loading ? ... : expenses.length === 0 ? ... : expenses.map(...)]. *)
Inductive ListArea :=
  | LoadingText
  | NoExpensesText
  | ExpenseRows (rows : list (Expense number)).

Definition listArea (st : Dashboard.State number) : ListArea :=
  if Dashboard.loading st then LoadingText
  else if (length (Dashboard.expenses st) =? 0)%nat then NoExpensesText
  else ExpenseRows (Dashboard.expenses st).

(** The submit button of the dialog: [disabled={loading || !supabase}]. *)
Definition submitDisabled (supabase : bool) (st : AddExpenseDialog.State) : bool :=
  AddExpenseDialog.loading st || negb supabase.

(** [{error && <Alert>...{error}...</Alert>}]: the empty string is falsy. *)
Definition errorAlert (st : AddExpenseDialog.State) : option string :=
  if decide (AddExpenseDialog.error st = "") then None
  else Some (AddExpenseDialog.error st).
End views.
Arguments ListArea : clear implicits.

(** The lookup tables of the Dashboard, by the names of the icons. *)
Definition categoryIcons : gmap string string :=
  <["groceries" := "ShoppingCart"]>
    (<["water" := "Droplets"]>
       (<["electricity" := "Zap"]> (<["gas" := "Flame"]> ∅))).

Definition categoryColors : gmap string string :=
  <["groceries" := "bg-green-100 text-green-800"]>
    (<["water" := "bg-blue-100 text-blue-800"]>
       (<["electricity" := "bg-yellow-100 text-yellow-800"]>
          (<["gas" := "bg-orange-100 text-orange-800"]> ∅))).

(** The [value] of each [SelectItem] of the dialog's category select. *)
Definition categoryItems : list string :=
  ["groceries"; "water"; "electricity"; "gas"].

(** [UPDATE] and [DELETE] on table [expenses] under the policies and the
    trigger of the SQL script. *)
Module StoreWrites.
Section writes.
Context {number : Type}.

(** Function [update_updated_at_column()]:
    [NEW.updated_at = NOW(); RETURN NEW;] *)
Definition update_updated_at_column (w : Store.World number)
    (NEW : Store.Row number) : Store.Row number :=
  Store.mkRow (Store.col_id NEW) (Store.col_user_id NEW) (Store.col_amount NEW)
              (Store.col_category NEW) (Store.col_description NEW)
              (Store.col_date NEW) (Store.col_created_at NEW)
              (Store.server_now w).

(** One row under [UPDATE ... SET set WHERE cond]: policy "Users can
    update own expenses" hides the rows of others from the statement;
    trigger [update_expenses_updated_at] fires before the row is written;
    the policy, having no [WITH CHECK] of its own, is applied to the new
    row as well. *)
Definition update_row (w : Store.World number)
    (cond : Store.Row number → bool) (set : Store.Row number → Store.Row number)
    (r : Store.Row number) : Supabase.StoreError + Store.Row number :=
  if Store.own w r && cond r then
    let NEW := update_updated_at_column w (set r) in
    if Store.own w NEW then inr NEW
    else inl (Supabase.mkError "new row violates row-level security policy")
  else inr r.

Fixpoint update_rows (w : Store.World number)
    (cond : Store.Row number → bool) (set : Store.Row number → Store.Row number)
    (rows : list (Store.Row number))
    : Supabase.StoreError + list (Store.Row number) :=
  match rows with
  | [] => inr []
  | r :: rest =>
      match update_row w cond set r, update_rows w cond set rest with
      | inr r', inr rest' => inr (r' :: rest')
      | inl e, _ => inl e
      | _, inl e => inl e
      end
  end.

(** [DELETE ... WHERE cond] under policy "Users can delete own expenses":
    the rows of others are hidden from the statement. *)
Definition delete (w : Store.World number) (cond : Store.Row number → bool)
    : Store.World number :=
  Store.mkWorld
    (filter (λ r, ¬ Is_true (Store.own w r && cond r)) (Store.table w))
    (Store.auth_uid w) (Store.fault w) (Store.server_now w)
    (Store.gen_random_uuid w).
End writes.
End StoreWrites.

(** The same store seen from another session. *)
Definition as_session {number : Type} (u : option string)
    (w : Store.World number) : Store.World number :=
  Store.mkWorld (Store.table w) u (Store.fault w) (Store.server_now w)
                (Store.gen_random_uuid w).

(** A date written as the dialog and the query write it. *)
Definition dayText (month : string) (k : Z) : string :=
  month +:+ "-" +:+ pad2 k.

(** A current date whose eleven months back stay in the years 0 to 9999. *)
Definition fourDigitYears (now : JSDate) : Prop := 1 ≤ year now ≤ 9999.

(* ===================================================================== *)
(** * Part II: theorems *)
(* ===================================================================== *)

#[export] Instance cents_exact_addition : ExactAddition Z.
Proof. split; simpl; intros; lia. Qed.

#[export] Instance cents_exact : ExactNumber Z.
Proof. split; [apply _|]. simpl; intros; lia. Qed.

Section aggregation_facts.
Context {number : Type} `{JSNumber number}.
Implicit Types (l : list (Expense number)) (acc : gmap string number).

Lemma fold_by_category_snoc l e acc :
  fold_left by_category_step (l ++ [e]) acc
  = by_category_step (fold_left by_category_step l acc) e.
Proof. by rewrite fold_left_app. Qed.

Lemma expensesByCategory_snoc l e :
  expensesByCategory (l ++ [e]) = by_category_step (expensesByCategory l) e.
Proof. apply fold_by_category_snoc. Qed.

Lemma totalExpenses_snoc l e :
  totalExpenses (l ++ [e]) = add (totalExpenses l) (amount e).
Proof. unfold totalExpenses. by rewrite fold_left_app. Qed.

Lemma of_category_snoc c l e :
  of_category c (l ++ [e])
  = of_category c l ++ (if decide (category e = c) then [e] else []).
Proof.
  unfold of_category. rewrite filter_app. f_equal.
Qed.

(** A key is present exactly when some record carries that category. *)
Lemma expensesByCategory_key l c :
  is_Some (expensesByCategory l !! c) ↔ ∃ e, e ∈ l ∧ category e = c.
Proof.
  induction l as [|e l IH] using rev_ind.
  - unfold expensesByCategory; simpl. rewrite lookup_empty. split.
    + intros [? ?]; discriminate.
    + intros (e & He & _). by apply elem_of_nil in He.
  - rewrite expensesByCategory_snoc. unfold by_category_step.
    destruct (decide (category e = c)) as [Heq|Hne].
    + rewrite Heq, lookup_insert_eq. split; [|by eauto].
      intros _. exists e. split; [|done]. apply elem_of_app. right. by left.
    + rewrite lookup_insert_ne by done. rewrite IH. split.
      * intros (e' & He' & Hc). exists e'. split; [|done].
        apply elem_of_app. by left.
      * intros (e' & He' & Hc). exists e'. split; [|done].
        apply elem_of_app in He' as [?|He']; [done|].
        apply list_elem_of_singleton in He'. congruence.
Qed.
End aggregation_facts.

Section aggregation_values.
Context {number : Type} `{JSNumber number}.
Implicit Types (l : list (Expense number)) (acc : gmap string number).

Lemma running_sums_app l l' (a : number) :
  running_sums a (l ++ l')
  = running_sums a l
    ++ running_sums (fold_left (λ sum e, add sum (amount e)) l a) l'.
Proof.
  revert a. induction l as [|e l IH]; intros a; simpl; [done|].
  by rewrite IH.
Qed.

Lemma sums_survive_or_app_l l l' :
  sums_survive_or (l ++ l') → sums_survive_or l.
Proof.
  unfold sums_survive_or. rewrite running_sums_app, Forall_app. tauto.
Qed.

Lemma total_in_running_sums l e :
  totalExpenses (l ++ [e]) ∈ running_sums zero (l ++ [e]).
Proof.
  rewrite running_sums_app. apply elem_of_app. right. simpl.
  rewrite totalExpenses_snoc. by left.
Qed.

(** A running sum that survives [|| 0] is read back unchanged. *)
Lemma or_zero_total l :
  sums_survive_or l → or_zero (Some (totalExpenses l)) = totalExpenses l.
Proof.
  intros Hs. simpl. destruct (truthy (totalExpenses l)) eqn:Ht; [done|].
  destruct l as [|e l _] using rev_ind; [done|].
  unfold sums_survive_or in Hs. rewrite Forall_forall in Hs.
  symmetry. apply Hs; [apply total_in_running_sums|done].
Qed.

(** The whole content of the mapping at one key. *)
Lemma expensesByCategory_lookup l c :
  sums_survive_or (of_category c l) →
  expensesByCategory l !! c
  = match of_category c l with
    | [] => None
    | _ :: _ => Some (totalExpenses (of_category c l))
    end.
Proof.
  induction l as [|e l IH] using rev_ind; intros Hs.
  - unfold expensesByCategory. simpl. by rewrite lookup_empty.
  - rewrite expensesByCategory_snoc. unfold by_category_step.
    rewrite of_category_snoc in Hs |- *.
    destruct (decide (category e = c)) as [->|Hne].
    + rewrite lookup_insert_eq.
      specialize (IH (sums_survive_or_app_l _ _ Hs)).
      rewrite IH, totalExpenses_snoc.
      pose proof (or_zero_total _ (sums_survive_or_app_l _ _ Hs)) as Hor.
      destruct (of_category c l) as [|e0 l0] eqn:Hoc; simpl app.
      * done.
      * by rewrite Hor.
    + rewrite lookup_insert_ne by done. rewrite app_nil_r in Hs |- *. auto.
Qed.

Lemma of_category_nil l c :
  of_category c l = [] ↔ ∀ e, e ∈ l → category e ≠ c.
Proof.
  unfold of_category. split.
  - intros Hnil e He Hc.
    assert (e ∈ filter (λ e, category e = c) l) as Hin
      by (apply list_elem_of_filter; done).
    rewrite Hnil in Hin. by apply elem_of_nil in Hin.
  - intros Hall. induction l as [|e l IH]; [done|].
    rewrite filter_cons. destruct (decide (category e = c)) as [Hc|Hc].
    + exfalso. apply (Hall e); [by left|done].
    + apply IH. intros e' He'. apply Hall. by right.
Qed.
End aggregation_values.

Section exact_addition.
Context {number : Type} `{ExactAddition number}.
Implicit Types (l : list (Expense number)) (acc : gmap string number).

Lemma add_zero_r (x : number) : add x zero = x.
Proof. by rewrite add_comm', add_zero_l. Qed.

Lemma fold_left_sum_amounts l (a : number) :
  fold_left (λ sum e, add sum (amount e)) l a = add a (sum_amounts l).
Proof.
  revert a. induction l as [|e l IH]; intros a; simpl.
  - by rewrite add_zero_r.
  - by rewrite IH, add_assoc'.
Qed.

Lemma totalExpenses_sum_amounts l : totalExpenses l = sum_amounts l.
Proof. unfold totalExpenses. by rewrite fold_left_sum_amounts, add_zero_l. Qed.

Lemma sum_amounts_perm l l' : l ≡ₚ l' → sum_amounts l = sum_amounts l'.
Proof.
  induction 1 as [|e l l' _ IH|e e' l|l l' l'' _ IH1 _ IH2]; simpl.
  - done.
  - by rewrite IH.
  - rewrite !add_assoc'. f_equal. apply add_comm'.
  - congruence.
Qed.

Lemma sum_values_comm (z1 z2 y : number) :
  add (add y z2) z1 = add (add y z1) z2.
Proof. rewrite <- !add_assoc'. f_equal. apply add_comm'. Qed.
End exact_addition.

Section exact_arithmetic.
Context {number : Type} `{ExactNumber number}.
Implicit Types (l : list (Expense number)) (acc : gmap string number).

Lemma sum_values_step acc e :
  sum_values (by_category_step acc e) = add (sum_values acc) (amount e).
Proof.
  unfold sum_values, by_category_step.
  destruct (acc !! category e) as [v|] eqn:Hv; simpl.
  - rewrite <- (insert_delete_eq acc).
    rewrite map_fold_insert_L
      by (intros; try apply sum_values_comm; apply lookup_delete_eq).
    rewrite (map_fold_delete_L _ _ (category e) v acc)
      by (intros; try apply sum_values_comm; done).
    rewrite <- !add_assoc'. f_equal. f_equal.
    destruct (truthy v) eqn:Ht; [done|]. by rewrite (falsy_zero v Ht).
  - rewrite map_fold_insert_L by (intros; try apply sum_values_comm; done).
    by rewrite add_zero_l.
Qed.

Lemma sum_values_fold l acc :
  sum_values (fold_left by_category_step l acc)
  = fold_left (λ sum e, add sum (amount e)) l (sum_values acc).
Proof.
  revert acc. induction l as [|e l IH]; intros acc; simpl; [done|].
  by rewrite IH, sum_values_step.
Qed.

Lemma sums_survive_or_exact l : sums_survive_or l.
Proof. apply Forall_forall. intros v _. apply falsy_zero. Qed.

(** In exact arithmetic the mapping is the table of the category sums,
    without any proviso. *)
Lemma expensesByCategory_exact l c :
  (expensesByCategory l !! c = None ↔ ∀ e, e ∈ l → category e ≠ c)
  ∧ (∀ v, expensesByCategory l !! c = Some v
          → v = sum_amounts (of_category c l)).
Proof.
  rewrite (expensesByCategory_lookup l c (sums_survive_or_exact _)).
  rewrite <- of_category_nil, <- totalExpenses_sum_amounts.
  destruct (of_category c l); split; (done || congruence).
Qed.
End exact_arithmetic.

(** An empty record set has total zero and an empty mapping. *)
Lemma empty_month {number : Type} `{JSNumber number} :
  totalExpenses (number:=number) [] = zero
  ∧ expensesByCategory (number:=number) [] = ∅.
Proof. done. Qed.

(** ** Claims on the aggregation view-model *)









(** ** Date strings *)

Lemma digit_not_T z : Ascii.eqb (digit z) "T" = false.
Proof.
  unfold digit. pose proof (Z.mod_pos_bound z 10).
  assert (z mod 10 = 0 ∨ z mod 10 = 1 ∨ z mod 10 = 2 ∨ z mod 10 = 3
          ∨ z mod 10 = 4 ∨ z mod 10 = 5 ∨ z mod 10 = 6 ∨ z mod 10 = 7
          ∨ z mod 10 = 8 ∨ z mod 10 = 9) as Hc by lia.
  destruct Hc as [-> | [-> | [-> | [-> | [-> | [-> | [-> | [-> | [-> | ->]]]]]]]]];
    reflexivity.
Qed.

(** The month of a clock reading is its year and month number. *)
Lemma isoMonth_calendar now :
  isoMonth now = pad4 (year now) +:+ "-" +:+ pad2 (month now + 1).
Proof. reflexivity. Qed.

(** The day of a clock reading is its calendar date. *)
Lemma isoDay_calendar now :
  isoDay now
  = pad4 (year now) +:+ "-" +:+ pad2 (month now + 1) +:+ "-" +:+ pad2 (day now).
Proof.
  unfold isoDay, toISOString, pad4, pad2. simpl.
  by rewrite !digit_not_T.
Qed.

Lemma compare_app_same p a b :
  String.compare (p +:+ a) (p +:+ b) = String.compare a b.
Proof.
  induction p as [|c p IH]; simpl; [done|].
  unfold Ascii.compare. by rewrite N.compare_refl.
Qed.

Lemma compare_app_diff p1 p2 a b :
  String.length p1 = String.length p2 →
  p1 ≠ p2 →
  String.compare (p1 +:+ a) (p2 +:+ b) = String.compare p1 p2.
Proof.
  revert p2.
  induction p1 as [|c1 p1 IH]; intros [|c2 p2] Hlen Hne; simpl in *; try done.
  destruct (Ascii.compare c1 c2) eqn:Hc; [|done..].
  apply Ascii.compare_eq_iff in Hc as ->.
  apply IH; [lia|]. congruence.
Qed.

(** On dates written [month'-dd], the range of a month holds the dates of
    that month whose day text lies from ["01"] up to, not including,
    ["32"]; days 01 to 31 all do. *)
Lemma within_month_well_formed month month' dd :
  String.length month' = String.length month →
  within_month month (month' +:+ "-" +:+ dd)
  = bool_decide (month' = month) && String.leb "01" dd && String.ltb dd "32".
Proof.
  intros Hlen. unfold within_month, String.leb, String.ltb.
  destruct (decide (month' = month)) as [->|Hne].
  - rewrite bool_decide_eq_true_2 by done. by rewrite !compare_app_same.
  - rewrite bool_decide_eq_false_2 by done.
    rewrite (compare_app_diff month month') by (done || congruence).
    rewrite (compare_app_diff month' month) by done.
    rewrite (String.compare_antisym month' month).
    by destruct (String.compare month month').
Qed.

(** ** Claims on the expense query *)

Section query_facts.
Context {number : Type}.
Implicit Types (w : Store.World number) (r : Store.Row number).

#[export] Instance before_total (o : string * bool) :
  Total (Store.before (number:=number) o).
Proof.
  intros r1 r2. unfold Store.before. destruct (o.2); apply String.le_total.
Qed.

#[export] Instance before_trans (o : string * bool) :
  Transitive (Store.before (number:=number) o).
Proof.
  intros r1 r2 r3. unfold Store.before.
  destruct (o.2); intros H12 H23; by etrans.
Qed.

(** The two filters of [month_query] are the range test on the date. *)
Lemma matches_month_query month r :
  Store.matches (Dashboard.month_query month) r
  = within_month month (Store.col_date r).
Proof.
  unfold within_month, Store.matches, Dashboard.month_query. simpl.
  by rewrite andb_true_r.
Qed.

Lemma selected_month_query w month :
  Store.selected w (Dashboard.month_query month)
  = filter (λ r, Is_true (within_month month (Store.col_date r)))
           (Store.visible w).
Proof.
  unfold Store.selected. apply list_filter_iff. intros r.
  by rewrite matches_month_query.
Qed.

(** What [fetchExpenses] leaves in the list when the store answers. *)
Lemma fetchExpenses_answered w (st : Dashboard.State number) :
  Store.fault w = None →
  Dashboard.expenses (state_of (fetchExpenses w st))
  = Store.to_expense
      <$> merge_sort (Store.before ("date", false))
            (Store.selected w (Dashboard.month_query (Dashboard.selectedMonth st))).
Proof.
  intros Hf. unfold fetchExpenses, Store.run_select. cbn. by rewrite Hf.
Qed.
End query_facts.



(** Unfolds the plumbing of handlers, leaving their tests in place. *)
Ltac run_eff :=
  cbv beta iota zeta delta
    [mbind mret eff_bind eff_ret get modify emit state_of trace_of fst snd
     Dashboard.setSelectedMonth Dashboard.setLoading Dashboard.setExpenses
     Dashboard.setShowAddDialog Dashboard.setUser].

(** C4, as stated, fails: a Dashboard that shows an expense of March
    still shows it after a query has failed; the list does not become
    empty. *)
Lemma failed_fetch_list_not_emptied :
  Dashboard.expenses
    (state_of (Dashboard.fetchExpenses_resume store_down march_dashboard))
  = [sample "groceries" 4550 "2024-03-15"]
  ∧ Dashboard.expenses
      (state_of (Dashboard.fetchExpenses_resume store_down march_dashboard))
    ≠ [].
Proof. split; [reflexivity|discriminate]. Qed.

(** C4 (amended): when the query fails, the error is logged, the expense
    list is left as it was, the loading flag is cleared, and the handler
    ends normally without touching anything else. *)
Theorem failed_fetch_keeps_list {number : Type}
    (st : Dashboard.State number) (d : option (list (Expense number)))
    (e : Supabase.StoreError) :
  let r := Dashboard.fetchExpenses_resume (Supabase.mkResponse d (Some e)) st in
  Dashboard.expenses (state_of r) = Dashboard.expenses st
  ∧ trace_of r = [ConsoleError "Error fetching expenses:" e;
                  SetState "Dashboard" "loading"]
  ∧ Dashboard.loading (state_of r) = false
  ∧ Dashboard.selectedMonth (state_of r) = Dashboard.selectedMonth st
  ∧ Dashboard.showAddDialog (state_of r) = Dashboard.showAddDialog st
  ∧ Dashboard.user (state_of r) = Dashboard.user st.
Proof. by repeat split. Qed.

(** A fault of the store, seen from the start of [fetchExpenses]. *)
Lemma fetchExpenses_store_fault {number : Type}
    (w : Store.World number) (st : Dashboard.State number)
    (e : Supabase.StoreError) :
  Store.fault w = Some e →
  Dashboard.expenses (state_of (fetchExpenses w st)) = Dashboard.expenses st
  ∧ trace_of (fetchExpenses w st)
    = [SetState "Dashboard" "loading";
       StoreSelect (Dashboard.month_query (Dashboard.selectedMonth st));
       ConsoleError "Error fetching expenses:" e;
       SetState "Dashboard" "loading"].
Proof.
  intros Hf. unfold fetchExpenses, Store.run_select. cbn. by rewrite Hf.
Qed.

(** ** Claims on the Dashboard's effect *)

Section effect_facts.
Context {number : Type}.
Implicit Types (st : Dashboard.State number) (i : Dashboard.Input number).

Lemma trace_of_bind {S A B} (m : Eff number S A) (k : A → Eff number S B) (s : S) :
  trace_of ((m ≫= k) s)
  = trace_of (m s) ++ trace_of (k (m s).1.1 (state_of (m s))).
Proof.
  unfold trace_of, state_of, mbind, eff_bind.
  destruct (m s) as [[a s1] t1]. simpl. by destruct (k a s1) as [[b s2] t2].
Qed.

Lemma state_of_bind {S A B} (m : Eff number S A) (k : A → Eff number S B) (s : S) :
  state_of ((m ≫= k) s) = state_of (k (m s).1.1 (state_of (m s))).
Proof.
  unfold state_of, mbind, eff_bind.
  destruct (m s) as [[a s1] t1]. simpl. by destruct (k a s1) as [[b s2] t2].
Qed.

Lemma getUser_calls_app (t1 t2 : list (Event number)) :
  getUser_calls (t1 ++ t2) = (getUser_calls t1 + getUser_calls t2)%nat.
Proof. unfold getUser_calls. by rewrite filter_app, length_app. Qed.

(** The month that is selected after one input. *)
Lemma step_selectedMonth i st :
  Dashboard.selectedMonth (state_of (Dashboard.step i st))
  = match i with
    | Dashboard.SelectMonth value => value
    | _ => Dashboard.selectedMonth st
    end.
Proof.
  destruct i as [|value| | |c|u|r|]; try done.
  - unfold Dashboard.step. run_eff.
    by destruct (decide (value = Dashboard.selectedMonth st)).
  - by destruct c.
  - unfold Dashboard.step, Dashboard.fetchExpenses_resume. run_eff.
    by destruct (Supabase.error r).
Qed.

(** One input asks for the user exactly when it makes the effect run. *)
Lemma step_getUser_calls i st :
  getUser_calls (trace_of (Dashboard.step i st))
  = if Dashboard.runs_effect st i then 1%nat else 0%nat.
Proof.
  destruct i as [|value| | |c|u|r|]; try done.
  - unfold Dashboard.step, Dashboard.runs_effect. run_eff.
    by destruct (decide (value = Dashboard.selectedMonth st)).
  - by destruct c.
  - unfold Dashboard.step, Dashboard.fetchExpenses_resume. run_eff.
    by destruct (Supabase.error r).
Qed.
End effect_facts.

(** C9, as stated, fails: after the mount, a change of the selected month
    asks the identity provider for the user a second time. *)
Lemma month_change_fetches_user_again :
  getUser_calls
    (trace_of (Dashboard.run (number:=Z)
                 [Dashboard.Mount; Dashboard.SelectMonth "2024-02"]
                 (Dashboard.initial mid_march)))
  = 2%nat.
Proof. reflexivity. Qed.

(** C9 (amended): the user is fetched once each time the effect runs, that
    is on mount and at every change of the selected month; no other input
    (opening or closing the dialog, an added expense, a response, signing
    out, selecting the month already selected) fetches the user. *)
Theorem user_fetched_per_effect_run {number : Type}
    (inputs : list (Dashboard.Input number)) (st : Dashboard.State number) :
  getUser_calls (trace_of (Dashboard.run inputs st))
  = effect_runs (Dashboard.selectedMonth st) inputs.
Proof.
  revert st. induction inputs as [|i inputs IH]; intros st; [done|].
  unfold Dashboard.run in *. simpl map. simpl sequence.
  rewrite trace_of_bind, getUser_calls_app, IH, step_selectedMonth,
    step_getUser_calls.
  destruct i as [|value| | |c|u|r|]; simpl; try done.
  by destruct (decide (value = Dashboard.selectedMonth st)).
Qed.

(** ** Claims on the entry dialog *)

(** C6: a submission that the store answers with a failure of message [m]
    shows exactly [m], calls neither property of the dialog (so the
    Dashboard, and with it the flag that keeps the dialog open, is
    untouched) and leaves amount, category, description and date as
    entered. *)
Theorem failed_submit_keeps_form {number : Type} (parseFloat : string → number)
    (now : JSDate) (pg : Page number) (d : option unit) (m : string) :
  let failure := Supabase.mkResponse d (Some (Supabase.mkError m)) in
  let r := in_dialog (AddExpenseDialog.handleSubmit parseFloat now failure) pg in
  AddExpenseDialog.error (dialog (state_of r)) = m
  ∧ dashboard (state_of r) = dashboard pg
  ∧ Dashboard.showAddDialog (dashboard (state_of r))
    = Dashboard.showAddDialog (dashboard pg)
  ∧ AddExpenseDialog.amount (dialog (state_of r))
    = AddExpenseDialog.amount (dialog pg)
  ∧ AddExpenseDialog.category (dialog (state_of r))
    = AddExpenseDialog.category (dialog pg)
  ∧ AddExpenseDialog.description (dialog (state_of r))
    = AddExpenseDialog.description (dialog pg)
  ∧ AddExpenseDialog.date (dialog (state_of r))
    = AddExpenseDialog.date (dialog pg)
  ∧ trace_of r
    = [PreventDefault;
       SetState "AddExpenseDialog" "loading";
       SetState "AddExpenseDialog" "error";
       StoreInsert [AddExpenseDialog.payload parseFloat (dialog pg)];
       SetState "AddExpenseDialog" "error";
       SetState "AddExpenseDialog" "loading"].
Proof. destruct pg as [dash form]. by repeat split. Qed.


(** The entry of 45.50 for groceries, accepted by the store on 15 March
    2024: the dialog is back to its defaults and closed, and the Dashboard
    is loading the month again. *)
Example weekly_shop_accepted (parseFloat : string → Z) :
  state_of (in_dialog (AddExpenseDialog.handleSubmit parseFloat mid_march
                         (Supabase.mkResponse None None)) open_page)
  = mkPage (Dashboard.mkState [] true "2024-03" false None)
           (AddExpenseDialog.mkState "" "" "" "2024-03-15" false "").
Proof. reflexivity. Qed.

(** The same entry, refused by the store: the message is shown, the dialog
    stays open and keeps what was entered. *)
Example weekly_shop_refused (parseFloat : string → Z) :
  state_of (in_dialog (AddExpenseDialog.handleSubmit parseFloat mid_march
                         (Supabase.mkResponse None
                            (Some (Supabase.mkError "insufficient permissions"))))
                      open_page)
  = mkPage (Dashboard.mkState [] false "2024-03" true None)
           (AddExpenseDialog.mkState "45.50" "groceries" "Weekly shop"
              "2024-03-15" false "insufficient permissions").
Proof. reflexivity. Qed.

(** Without the two environment variables nothing is sent. *)
Lemma unconfigured_submit_sends_nothing {number : Type}
    (parseFloat : string → number) (st : AddExpenseDialog.State) :
  trace_of (AddExpenseDialog.handleSubmit_start parseFloat false st)
  = [PreventDefault; SetState "AddExpenseDialog" "error"]
  ∧ AddExpenseDialog.error
      (state_of (AddExpenseDialog.handleSubmit_start parseFloat false st))
    = "Application is not properly configured. Please contact support.".
Proof. done. Qed.

Section payload_facts.
Context {number : Type} (parseFloat : string → number).
Implicit Types (st : AddExpenseDialog.State) (w : Store.World number).

(** The trigger decides the owner of an inserted row, whatever the
    request says. *)
Lemma insert_row_owner w (p : gmap string (JSValue number)) NEW :
  Store.insert_row w p = inr NEW → Store.col_user_id NEW = Store.auth_uid w.
Proof.
  unfold Store.insert_row. destruct (Store.tuple_of w p) as [t|]; [|done].
  destruct (Store.own w (Store.set_user_id w t)); [|done].
  by intros [= <-].
Qed.

Lemma payload_dom st :
  dom (AddExpenseDialog.payload parseFloat st)
  = ({["amount"; "category"; "description"; "date"]} : gset string).
Proof.
  unfold AddExpenseDialog.payload.
  rewrite !dom_insert_L, dom_empty_L. set_solver.
Qed.

(** The tuple that the store builds from the payload of the dialog. *)
Lemma tuple_of_payload w st :
  Store.tuple_of w (AddExpenseDialog.payload parseFloat st)
  = Some (Store.mkRow (Store.gen_random_uuid w (length (Store.table w))) None
            (parseFloat (AddExpenseDialog.amount st))
            (AddExpenseDialog.category st)
            (AddExpenseDialog.description st)
            (AddExpenseDialog.date st)
            (Store.server_now w) (Store.server_now w)).
Proof. reflexivity. Qed.
End payload_facts.

(** The store's answer to the request of the dialog: with a session and
    without a fault, success, and the table grows by the row owned by the
    session. *)
Lemma insert_payload_owned {number : Type} (parseFloat : string → number)
    (st : AddExpenseDialog.State) (w : Store.World number) (u : string) :
  Store.fault w = None →
  Store.auth_uid w = Some u →
  Store.insert w [AddExpenseDialog.payload parseFloat st]
  = (Supabase.mkResponse None None,
     Store.mkWorld
       (Store.table w
        ++ [Store.mkRow (Store.gen_random_uuid w (length (Store.table w)))
              (Some u)
              (parseFloat (AddExpenseDialog.amount st))
              (AddExpenseDialog.category st)
              (AddExpenseDialog.description st)
              (AddExpenseDialog.date st)
              (Store.server_now w) (Store.server_now w)])
       (Some u) None (Store.server_now w) (Store.gen_random_uuid w)).
Proof.
  intros Hf Hu. unfold Store.insert, Store.insert_rows, Store.insert_row.
  rewrite Hf, tuple_of_payload. unfold Store.own, Store.set_user_id. simpl.
  rewrite Hu. by rewrite bool_decide_eq_true_2.
Qed.


(** ** Claims on the month selector *)

Section month_facts.
Implicit Types (now d : JSDate).

Lemma daysInMonth_ge_28 y m : 28 ≤ daysInMonth y m.
Proof.
  unfold daysInMonth.
  destruct (m =? 1); [destruct (isLeapYear y); lia|].
  destruct ((m =? 3) || (m =? 5) || (m =? 8) || (m =? 10)); lia.
Qed.

(** Without a surplus of days, [setMonth] lands in the month asked for. *)
Lemma setMonth_small_day now m :
  day now ≤ 28 →
  setMonth now m
  = mkDate (year now + m / 12) (m mod 12) (day now) (timeOfDay now).
Proof.
  intros Hd. unfold setMonth.
  pose proof (daysInMonth_ge_28 (year now + m / 12) (m mod 12)).
  destruct (day now <=? daysInMonth (year now + m / 12) (m mod 12)) eqn:Hle;
    [done|lia].
Qed.

Lemma monthDates_length now : length (Dashboard.monthDates now) = 12%nat.
Proof. reflexivity. Qed.

(** Up to day 28 the selector is what it is meant to be: item [i] lies
    [i] whole months before the current month. *)
Lemma monthDates_small_day now (i : nat) d :
  day now ≤ 28 →
  Dashboard.monthDates now !! i = Some d →
  monthIndex d = monthIndex now - Z.of_nat i
  ∧ 0 ≤ month d ≤ 11
  ∧ day d = day now.
Proof.
  intros Hd Hi. unfold Dashboard.monthDates in Hi.
  apply list_lookup_fmap_Some in Hi as (z & -> & Hz).
  apply lookup_seqZ in Hz as [-> Hlt].
  rewrite (setMonth_small_day now _ Hd). unfold monthIndex, getMonth. simpl.
  pose proof (Z.div_mod (month now - (0 + Z.of_nat i)) 12).
  pose proof (Z.mod_pos_bound (month now - (0 + Z.of_nat i)) 12).
  lia.
Qed.

Lemma monthDates_small_day_decreasing now (i j : nat) di dj :
  day now ≤ 28 →
  (i < j)%nat →
  Dashboard.monthDates now !! i = Some di →
  Dashboard.monthDates now !! j = Some dj →
  monthIndex dj < monthIndex di.
Proof.
  intros Hd Hij Hi Hj.
  apply (monthDates_small_day now i di Hd) in Hi as (Hi & _).
  apply (monthDates_small_day now j dj Hd) in Hj as (Hj & _).
  lia.
Qed.
End month_facts.

(** C5 at a day the code mishandles: on 31 March 2024 the selector has
    twelve items, but item 1 is March again (31 February runs over into
    March), February is missing, and the items repeat instead of
    decreasing. *)
Theorem month_options_end_of_march :
  Dashboard.monthOptions end_of_march
  = ["2024-03"; "2024-03"; "2024-01"; "2023-12"; "2023-12"; "2023-10";
     "2023-10"; "2023-08"; "2023-07"; "2023-07"; "2023-05"; "2023-05"]
  ∧ ("2024-02" ∉ Dashboard.monthOptions end_of_march)
  ∧ ¬ NoDup (Dashboard.monthOptions end_of_march).
Proof.
  assert (Dashboard.monthOptions end_of_march
          = ["2024-03"; "2024-03"; "2024-01"; "2023-12"; "2023-12"; "2023-10";
             "2023-10"; "2023-08"; "2023-07"; "2023-07"; "2023-05"; "2023-05"])
    as Heq by (vm_compute; reflexivity).
  split; [exact Heq|]. rewrite Heq. split.
  - intros Hin. repeat (apply elem_of_cons in Hin as [Hin|Hin]; [discriminate|]).
    by apply elem_of_nil in Hin.
  - intros Hnd. apply NoDup_cons in Hnd as [Hnotin _]. apply Hnotin. by left.
Qed.

(* ===================================================================== *)
(** * Part III: further properties of the code *)
(* ===================================================================== *)

(** ** The month selector on every date *)

Section selector_facts.
Implicit Types (now d : JSDate).

Lemma setMonth_same now : validDate now → setMonth now (getMonth now) = now.
Proof.
  intros [Hm Hd]. unfold setMonth, getMonth.
  rewrite (Z.div_small (month now) 12), (Z.mod_small (month now) 12) by lia.
  rewrite Z.add_0_r.
  destruct (day now <=? daysInMonth (year now) (month now)) eqn:Hle; [|lia].
  by destruct now.
Qed.

(** Where [setMonth] lands: in the month asked for or, with a surplus of
    days, in the month after it; always on a date that exists. *)
Lemma setMonth_lands d m :
  1 ≤ day d ≤ 31 →
  validDate (setMonth d m)
  ∧ 12 * year d + m ≤ monthIndex (setMonth d m) ≤ 12 * year d + m + 1.
Proof.
  intros Hd. unfold setMonth, validDate, monthIndex.
  pose proof (daysInMonth_ge_28 (year d + m / 12) (m mod 12)) as H28.
  pose proof (daysInMonth_ge_28 (year d + m / 12 + (m mod 12 + 1) / 12)
                ((m mod 12 + 1) mod 12)) as H28'.
  destruct (day d <=? daysInMonth (year d + m / 12) (m mod 12)) eqn:Hle; simpl.
  - split; [|Z.div_mod_to_equations; lia].
    split; [Z.div_mod_to_equations; lia|lia].
  - split; [|Z.div_mod_to_equations; lia].
    split; [Z.div_mod_to_equations; lia|lia].
Qed.

Lemma monthDates_lookup now (i : nat) d :
  Dashboard.monthDates now !! i = Some d ↔
  (i < 12)%nat ∧ d = setMonth now (getMonth now - Z.of_nat i).
Proof.
  unfold Dashboard.monthDates. rewrite list_lookup_fmap_Some. split.
  - intros (z & -> & Hz). apply lookup_seqZ in Hz as [-> Hlt].
    split; [lia|done].
  - intros [Hlt ->]. exists (Z.of_nat i). split; [done|].
    apply lookup_seqZ. lia.
Qed.
End selector_facts.

(** X1: on every date that exists, the first item of the month selector is
    the current month, which is also the month the Dashboard selects at
    its first render. *)
Theorem month_options_first_is_current {number : Type} (now : JSDate) :
  validDate now →
  Dashboard.monthOptions now !! 0%nat
  = Some (Dashboard.selectedMonth (Dashboard.initial (number:=number) now)).
Proof.
  intros Hv. unfold Dashboard.monthOptions, Dashboard.monthDates.
  change (seqZ 0 12) with (0 :: seqZ 1 11). simpl.
  rewrite Z.sub_0_r. by rewrite (setMonth_same now Hv).
Qed.

Lemma month_options_first_is_current_witness :
  validDate end_of_march
  ∧ Dashboard.monthOptions end_of_march !! 0%nat = Some "2024-03".
Proof.
  assert (validDate end_of_march) as Hv by (repeat split; by vm_compute).
  split; [exact Hv|].
  exact (month_options_first_is_current (number:=Z) end_of_march Hv).
Defined.



Section month_text_facts.
Implicit Types (now d : JSDate).

Lemma digit_inj a b : digit a = digit b → a mod 10 = b mod 10.
Proof.
  unfold digit. intros Heq. apply (f_equal N_of_ascii) in Heq.
  pose proof (Z.mod_pos_bound a 10). pose proof (Z.mod_pos_bound b 10).
  rewrite !N_ascii_embedding in Heq by lia. lia.
Qed.

(** Within the years 0 to 9999 the text of a month tells its year and
    month. *)
Lemma month_text_inj d1 d2 :
  0 ≤ year d1 ≤ 9999 → 0 ≤ month d1 ≤ 11 →
  0 ≤ year d2 ≤ 9999 → 0 ≤ month d2 ≤ 11 →
  slice0 7 (toISOString d1) = slice0 7 (toISOString d2) →
  monthIndex d1 = monthIndex d2.
Proof.
  intros Hy1 Hm1 Hy2 Hm2 Heq. unfold monthIndex.
  change (pad4 (year d1) +:+ "-" +:+ pad2 (month d1 + 1)
          = pad4 (year d2) +:+ "-" +:+ pad2 (month d2 + 1)) in Heq.
  unfold pad4, pad2 in Heq. simpl in Heq.
  injection Heq as H1 H2 H3 H4 H5 H6.
  apply digit_inj in H1, H2, H3, H4, H5, H6.
  Z.div_mod_to_equations. lia.
Qed.
End month_text_facts.



(** ** The window of the query on calendar days *)

Lemma pad2_day_range k :
  1 ≤ k ≤ 31 →
  String.leb "01" (pad2 k) = true ∧ String.ltb (pad2 k) "32" = true.
Proof.
  intros Hk.
  assert (forallb (λ k, String.leb "01" (pad2 k) && String.ltb (pad2 k) "32")
                  (seqZ 1 31) = true) as Hall by (vm_compute; reflexivity).
  rewrite forallb_forall in Hall. specialize (Hall k).
  apply andb_true_iff, Hall, list_elem_of_In, elem_of_seqZ. lia.
Qed.

Lemma pad2_beyond_range k :
  32 ≤ k ≤ 99 → String.ltb (pad2 k) "32" = false.
Proof.
  intros Hk.
  assert (forallb (λ k, negb (String.ltb (pad2 k) "32")) (seqZ 32 68) = true)
    as Hall by (vm_compute; reflexivity).
  rewrite forallb_forall in Hall. specialize (Hall k).
  apply negb_true_iff, Hall, list_elem_of_In, elem_of_seqZ. lia.
Qed.

(** X4: with dates written [month-dd], the window [[month-01, month-32)]
    of the query holds every day 01 to 31 of the selected month, no day
    of any other month (of the same width), and no day number from 32. *)
Theorem month_window_is_the_month (month month' : string) (k : Z) :
  String.length month' = String.length month →
  0 ≤ k ≤ 99 →
  within_month month (dayText month' k)
  = bool_decide (month' = month ∧ 1 ≤ k ≤ 31).
Proof.
  intros Hlen Hk. unfold dayText.
  rewrite (within_month_well_formed month month' (pad2 k) Hlen).
  destruct (decide (month' = month)) as [->|Hne].
  - rewrite (bool_decide_eq_true_2 (month = month)) by done. simpl.
    destruct (decide (1 ≤ k ≤ 31)) as [Hin|Hout].
    + destruct (pad2_day_range k Hin) as [-> ->].
      by rewrite bool_decide_eq_true_2.
    + rewrite bool_decide_eq_false_2 by tauto.
      destruct (decide (k = 0)) as [->|Hk0]; [done|].
      rewrite (pad2_beyond_range k) by lia. apply andb_false_r.
  - rewrite (bool_decide_eq_false_2 (month' = month)) by done.
    by rewrite bool_decide_eq_false_2 by tauto.
Qed.

Lemma month_window_is_the_month_witness :
  within_month "2024-02" (dayText "2024-02" 29) = true
  ∧ within_month "2024-02" (dayText "2024-03" 1) = false.
Proof.
  split.
  - rewrite (month_window_is_the_month "2024-02" "2024-02" 29 eq_refl)
      by lia.
    apply bool_decide_eq_true_2. split; [done|lia].
  - reflexivity.
Defined.

(** X5: on every date that exists, the date the dialog proposes lies in
    the window of the month the Dashboard selects at its first render. *)
Theorem default_date_in_default_month {number : Type} (now : JSDate) :
  validDate now →
  within_month
    (Dashboard.selectedMonth (Dashboard.initial (number:=number) now))
    (AddExpenseDialog.date (AddExpenseDialog.initial now))
  = true.
Proof.
  intros [Hm Hd].
  assert (1 ≤ day now ≤ 31) as Hday.
  { unfold daysInMonth in Hd.
    repeat (destruct (_ =? _) in Hd || destruct (isLeapYear _) in Hd);
      simpl in Hd; lia. }
  change (within_month (isoMonth now) (isoDay now) = true).
  rewrite isoDay_calendar.
  change (within_month (isoMonth now) (isoMonth now +:+ "-" +:+ pad2 (day now))
          = true).
  rewrite within_month_well_formed by done.
  destruct (pad2_day_range (day now) Hday) as [-> ->].
  by rewrite bool_decide_eq_true_2.
Qed.

Lemma default_date_in_default_month_witness :
  validDate end_of_march
  ∧ within_month "2024-03" "2024-03-31" = true.
Proof.
  assert (validDate end_of_march) as Hv by (repeat split; by vm_compute).
  split; [exact Hv|].
  exact (default_date_in_default_month (number:=Z) end_of_march Hv).
Defined.

(** ** Fetching: what settles, whose rows, which response *)

Lemma filter_none {A : Type} (P : A → Prop) `{∀ x, Decision (P x)} (l : list A) :
  (∀ x, x ∈ l → ¬ P x) → filter P l = [].
Proof.
  induction l as [|x l IH]; intros Hall; [done|].
  rewrite filter_cons. destruct (decide (P x)) as [HP|_].
  - exfalso. apply (Hall x); [by left|done].
  - apply IH. intros y Hy. apply Hall. by right.
Qed.

Section fetch_facts.
Context {number : Type}.
Implicit Types (w : Store.World number) (st : Dashboard.State number).

(** Whatever the store answers, the part of [fetchExpenses] after the
    [await] leaves the loading flag cleared and everything but the list
    untouched. *)
Lemma fetchExpenses_resume_frame r st :
  let st' := state_of (Dashboard.fetchExpenses_resume r st) in
  Dashboard.loading st' = false
  ∧ Dashboard.selectedMonth st' = Dashboard.selectedMonth st
  ∧ Dashboard.showAddDialog st' = Dashboard.showAddDialog st
  ∧ Dashboard.user st' = Dashboard.user st
  ∧ getUser_calls (trace_of (Dashboard.fetchExpenses_resume r st)) = 0%nat.
Proof.
  unfold Dashboard.fetchExpenses_resume. run_eff.
  by destruct (Supabase.error r).
Qed.

Lemma fetchExpenses_frame w st :
  let r := fetchExpenses w st in
  Dashboard.loading (state_of r) = false
  ∧ Dashboard.selectedMonth (state_of r) = Dashboard.selectedMonth st
  ∧ Dashboard.showAddDialog (state_of r) = Dashboard.showAddDialog st
  ∧ Dashboard.user (state_of r) = Dashboard.user st
  ∧ getUser_calls (trace_of r) = 0%nat.
Proof.
  unfold fetchExpenses, Store.run_select.
  by destruct (Store.fault w) as [e|].
Qed.

Lemma selected_own w q (r : Store.Row number) :
  r ∈ Store.selected w q →
  r ∈ Store.table w ∧ Is_true (Store.own w r) ∧ Is_true (Store.matches q r).
Proof.
  unfold Store.selected, Store.visible.
  rewrite !list_elem_of_filter. tauto.
Qed.

Lemma own_session w (r : Store.Row number) :
  Is_true (Store.own w r) →
  ∃ u, Store.auth_uid w = Some u ∧ Store.col_user_id r = Some u.
Proof.
  unfold Store.own.
  destruct (Store.auth_uid w) as [u|], (Store.col_user_id r) as [o|];
    try done.
  intros Hu%bool_decide_unpack. exists u. by rewrite Hu.
Qed.
End fetch_facts.

(** X6: whatever the store answers to a fetch, fault or rows, the Dashboard
    ends with the loading flag cleared, the selected month, the dialog
    flag and the user untouched, and without asking for the user. *)
Theorem fetch_settles {number : Type}
    (w : Store.World number) (st : Dashboard.State number) :
  let r := fetchExpenses w st in
  Dashboard.loading (state_of r) = false
  ∧ Dashboard.selectedMonth (state_of r) = Dashboard.selectedMonth st
  ∧ Dashboard.showAddDialog (state_of r) = Dashboard.showAddDialog st
  ∧ Dashboard.user (state_of r) = Dashboard.user st
  ∧ listArea (state_of r) ≠ LoadingText
  ∧ getUser_calls (trace_of r) = 0%nat.
Proof.
  intros r. destruct (fetchExpenses_frame w st) as (Hl & Hm & Hs & Hu & Hg).
  repeat (split; [done|]). split; [|done].
  unfold listArea. fold r in Hl. rewrite Hl.
  by destruct (length _ =? 0)%nat.
Qed.

(** X7: a fetch that the store answers shows only rows of the table that
    belong to the user of the session. *)
Theorem fetch_shows_only_own {number : Type}
    (w : Store.World number) (st : Dashboard.State number)
    (e : Expense number) :
  Store.fault w = None →
  e ∈ Dashboard.expenses (state_of (fetchExpenses w st)) →
  ∃ r u, r ∈ Store.table w
         ∧ e = Store.to_expense r
         ∧ Store.auth_uid w = Some u
         ∧ Store.col_user_id r = Some u.
Proof.
  intros Hf He. rewrite (fetchExpenses_answered w st Hf) in He.
  apply list_elem_of_fmap in He as (r & -> & Hr).
  rewrite merge_sort_Permutation in Hr.
  apply selected_own in Hr as (Hin & Hown & _).
  apply own_session in Hown as (u & Hu & Ho). by exists r, u.
Qed.

Lemma fetch_shows_only_own_witness :
  ∃ r u, r ∈ Store.table january_world
         ∧ mkExpense "r1" 4550 "groceries" "Weekly shop" "2024-01-31" ""
           = Store.to_expense r
         ∧ Store.auth_uid january_world = Some u
         ∧ Store.col_user_id r = Some u.
Proof.
  apply (fetch_shows_only_own january_world january_dashboard); [reflexivity|].
  vm_compute. by left.
Defined.

(** X8: without a session the policy hides every row: a fetch that the
    store answers leaves the list empty and the placeholder for "no
    expenses" on display. *)
Theorem fetch_without_session_empty {number : Type}
    (w : Store.World number) (st : Dashboard.State number) :
  Store.fault w = None →
  Store.auth_uid w = None →
  Dashboard.expenses (state_of (fetchExpenses w st)) = []
  ∧ listArea (state_of (fetchExpenses w st)) = NoExpensesText.
Proof.
  intros Hf Hu.
  assert (Store.visible w = []) as Hvis.
  { unfold Store.visible. apply filter_none.
    intros r _. unfold Store.own. rewrite Hu. simpl. tauto. }
  assert (Dashboard.expenses (state_of (fetchExpenses w st)) = []) as Hnil.
  { rewrite (fetchExpenses_answered w st Hf).
    unfold Store.selected. by rewrite Hvis. }
  split; [exact Hnil|].
  unfold listArea. rewrite Hnil.
  by rewrite (proj1 (fetchExpenses_frame w st)).
Qed.

Lemma fetch_without_session_empty_witness :
  Dashboard.expenses
    (state_of (fetchExpenses
                 (Store.mkWorld january_table None None "" (λ _, ""))
                 january_dashboard))
  = [].
Proof.
  exact (proj1 (fetch_without_session_empty
                  (Store.mkWorld january_table None None "" (λ _, ""))
                  january_dashboard eq_refl eq_refl)).
Defined.

(** X9: when no row that the session may read is dated in the window of
    the selected month, an answered fetch leaves the list empty: the
    placeholder for "no expenses" is on display, the total is zero and
    the per-category mapping has no key. *)
Theorem empty_month_view {number : Type} `{JSNumber number}
    (w : Store.World number) (st : Dashboard.State number) :
  Store.fault w = None →
  (∀ r, r ∈ Store.visible w →
        within_month (Dashboard.selectedMonth st) (Store.col_date r) = false) →
  let st' := state_of (fetchExpenses w st) in
  Dashboard.expenses st' = []
  ∧ listArea st' = NoExpensesText
  ∧ totalExpenses (Dashboard.expenses st') = zero
  ∧ expensesByCategory (Dashboard.expenses st') = ∅.
Proof.
  intros Hf Hout st'.
  assert (Dashboard.expenses st' = []) as Hnil.
  { unfold st'. rewrite (fetchExpenses_answered w st Hf).
    rewrite selected_month_query, filter_none; [done|].
    intros r Hr. rewrite (Hout r Hr). simpl. tauto. }
  split; [exact Hnil|]. rewrite Hnil. split; [|done].
  unfold listArea. rewrite Hnil. unfold st'.
  by rewrite (proj1 (fetchExpenses_frame w st)).
Qed.

Lemma empty_month_view_witness :
  listArea (state_of (fetchExpenses january_world
                        (Dashboard.mkState [] true "2023-12" false None)))
  = NoExpensesText.
Proof.
  refine (proj1 (proj2 (empty_month_view january_world
                          (Dashboard.mkState [] true "2023-12" false None)
                          eq_refl _))).
  intros r Hr. vm_compute in Hr.
  repeat (apply elem_of_cons in Hr as [->|Hr]; [reflexivity|]).
  by apply elem_of_nil in Hr.
Defined.

Lemma run_cons_state {number : Type} (i : Dashboard.Input number)
    (inputs : list (Dashboard.Input number)) (st : Dashboard.State number) :
  state_of (Dashboard.run (i :: inputs) st)
  = state_of (Dashboard.run inputs (state_of (Dashboard.step i st))).
Proof.
  unfold Dashboard.run. simpl map. simpl sequence. by rewrite state_of_bind.
Qed.

Lemma run_nil_state {number : Type} (st : Dashboard.State number) :
  state_of (Dashboard.run [] st) = st.
Proof. reflexivity. Qed.

(** X10: responses are applied in the order they arrive, without regard
    to the month they were asked for: after two changes of the month,
    when the response for the second month arrives before the response
    for the first, the list shows the rows of the first month under the
    selection of the second, and the loading flag is clear. *)
Theorem stale_response_wins {number : Type} (st : Dashboard.State number)
    (first second : string)
    (rows_first rows_second : option (list (Expense number))) :
  let st' :=
    state_of
      (Dashboard.run
         [Dashboard.SelectMonth first;
          Dashboard.SelectMonth second;
          Dashboard.ExpensesResolved (Supabase.mkResponse rows_second None);
          Dashboard.ExpensesResolved (Supabase.mkResponse rows_first None)]
         st) in
  Dashboard.selectedMonth st' = second
  ∧ Dashboard.expenses st' = default [] rows_first
  ∧ Dashboard.loading st' = false.
Proof.
  intros st'. unfold st'. rewrite !run_cons_state, run_nil_state.
  generalize (state_of (Dashboard.step (Dashboard.SelectMonth first) st)).
  intros s1. split; [|split].
  - by rewrite !step_selectedMonth.
  - generalize (state_of (Dashboard.step (Dashboard.SelectMonth second) s1)).
    intros s2. done.
  - generalize (state_of (Dashboard.step (Dashboard.SelectMonth second) s1)).
    intros s2. done.
Qed.

(** ** Writing to the store *)

Section write_facts.
Context {number : Type}.
Implicit Types (w : Store.World number) (r : Store.Row number)
  (p : gmap string (JSValue number)).

Lemma own_set_user_id w r :
  Store.own w (Store.set_user_id w r)
  = match Store.auth_uid w with Some _ => true | None => false end.
Proof.
  unfold Store.own, Store.set_user_id. simpl.
  destruct (Store.auth_uid w) as [u|]; [|done].
  by rewrite bool_decide_eq_true_2.
Qed.

(** A row owned in one session is not owned in the session of another
    user. *)
Lemma own_other_session w r (u u2 : string) :
  Store.auth_uid w = Some u →
  u2 ≠ u →
  Is_true (Store.own w r) →
  ¬ Is_true (Store.own (as_session (Some u2) w) r).
Proof.
  intros Hu Hne Hown. apply own_session in Hown as (u' & Hu' & Ho).
  unfold Store.own, as_session. simpl. rewrite Ho.
  intros Heq%bool_decide_unpack. congruence.
Qed.

Lemma own_as_session w (u2 : option string) r :
  Store.own (as_session u2 w) r
  = match u2, Store.col_user_id r with
    | Some u, Some o => bool_decide (u = o)
    | _, _ => false
    end.
Proof. reflexivity. Qed.
End write_facts.


(** X12: a create request that lacks one of amount, category, description
    or date is refused, and the table stays as it was. *)
Theorem insert_missing_column_refused {number : Type}
    (w : Store.World number) (p : gmap string (JSValue number)) (k : string) :
  k ∈ ["amount"; "category"; "description"; "date"] →
  p !! k = None →
  is_Some (Supabase.error (Store.insert w [p]).1)
  ∧ (Store.insert w [p]).2 = w.
Proof.
  intros Hk Hp. unfold Store.insert.
  destruct (Store.fault w) as [e|]; [by eauto|].
  assert (Store.tuple_of w p = None) as Ht.
  { unfold Store.tuple_of.
    repeat (apply elem_of_cons in Hk as [->|Hk];
            [rewrite Hp; simpl;
             repeat (match goal with
                     | |- context [Store.number_of ?x] =>
                         destruct (Store.number_of x); simpl; try done
                     | |- context [Store.text_of ?x] =>
                         destruct (Store.text_of x); simpl; try done
                     end); done|]).
    by apply elem_of_nil in Hk. }
  unfold Store.insert_rows, Store.insert_row. rewrite Ht. by eauto.
Qed.

Lemma insert_missing_column_refused_witness :
  (Store.insert january_world [<["amount" := VNum 100]> ∅]).2 = january_world.
Proof.
  refine (proj2 (insert_missing_column_refused january_world
                   (<["amount" := VNum 100]> ∅) "date" _ eq_refl)).
  set_solver.
Defined.



Section update_facts.
Context {number : Type}.
Implicit Types (w : Store.World number) (r : Store.Row number)
  (cond : Store.Row number → bool) (set : Store.Row number → Store.Row number).

(** What an accepted update does to one row. *)
Lemma update_row_inr w cond set r r' :
  StoreWrites.update_row w cond set r = inr r' →
  (Store.own w r && cond r = false ∧ r' = r)
  ∨ (Store.own w r && cond r = true
     ∧ r' = StoreWrites.update_updated_at_column w (set r)
     ∧ Is_true (Store.own w r')).
Proof.
  unfold StoreWrites.update_row.
  destruct (Store.own w r && cond r); [|intros [= <-]; by left].
  destruct (Store.own w (StoreWrites.update_updated_at_column w (set r)))
    eqn:Hown; [|done].
  intros [= <-]. right. by rewrite Hown.
Qed.

Lemma update_rows_inr w cond set rows rows' :
  StoreWrites.update_rows w cond set rows = inr rows' →
  Forall2 (λ r r', StoreWrites.update_row w cond set r = inr r') rows rows'.
Proof.
  revert rows'. induction rows as [|r rows IH]; intros rows'; simpl.
  - intros [= <-]. constructor.
  - destruct (StoreWrites.update_row w cond set r) as [e|r1] eqn:Hr;
      [done|].
    destruct (StoreWrites.update_rows w cond set rows) as [e|rest]; [done|].
    intros [= <-]. constructor; [done|]. by apply IH.
Qed.

Lemma own_same_owner w r r' :
  Is_true (Store.own w r) → Is_true (Store.own w r') →
  Store.col_user_id r' = Store.col_user_id r.
Proof.
  intros (u & Hu & Ho)%own_session (u' & Hu' & Ho')%own_session. congruence.
Qed.
End update_facts.

(** X14: an accepted [UPDATE] keeps the number and the order of the rows,
    leaves every row that is not the session's (or that the condition
    does not select) exactly as it was, and gives every row it changes
    the current time as [updated_at] and the owner it had. *)
Theorem update_stamps_and_keeps_owner {number : Type}
    (w : Store.World number)
    (cond : Store.Row number → bool) (set : Store.Row number → Store.Row number)
    (rows rows' : list (Store.Row number)) (i : nat)
    (r r' : Store.Row number) :
  StoreWrites.update_rows w cond set rows = inr rows' →
  rows !! i = Some r →
  rows' !! i = Some r' →
  length rows' = length rows
  ∧ (Store.own w r && cond r = false → r' = r)
  ∧ (Store.own w r && cond r = true →
     Store.col_updated_at r' = Store.server_now w
     ∧ Store.col_user_id r' = Store.col_user_id r
     ∧ Store.col_id r' = Store.col_id (set r)
     ∧ Store.col_amount r' = Store.col_amount (set r)).
Proof.
  intros Hup Hi Hi'. apply update_rows_inr in Hup.
  split; [symmetry; by eapply Forall2_length|].
  pose proof (Forall2_lookup_lr _ _ _ _ _ _ Hup Hi Hi') as Hr.
  apply update_row_inr in Hr as [[Hc ->]|(Hc & -> & Hown)].
  - split; [done|]. rewrite Hc. done.
  - split; [rewrite Hc; done|]. intros _.
    repeat split; try done.
    apply (own_same_owner w); [|done].
    apply andb_true_iff in Hc as [Hc _]. by rewrite Hc.
Qed.

Lemma update_stamps_and_keeps_owner_witness :
  StoreWrites.update_rows january_world (λ _, true)
    (λ r, Store.mkRow (Store.col_id r) (Store.col_user_id r) 5000
            (Store.col_category r) (Store.col_description r)
            (Store.col_date r) (Store.col_created_at r) "never")
    [Store.mkRow "r1" (Some "ana") 4550 "groceries" "Weekly shop"
       "2024-01-31" "" ""]
  = inr [Store.mkRow "r1" (Some "ana") 5000 "groceries" "Weekly shop"
           "2024-01-31" "" "2024-02-02T08:00:00Z"]
  ∧ Store.col_updated_at
      (Store.mkRow "r1" (Some "ana") 5000 "groceries" "Weekly shop"
         "2024-01-31" "" "2024-02-02T08:00:00Z")
    = Store.server_now january_world.
Proof.
  split; [reflexivity|].
  refine (proj1 (proj2 (proj2
    (update_stamps_and_keeps_owner january_world (λ _, true)
       (λ r, Store.mkRow (Store.col_id r) (Store.col_user_id r) 5000
               (Store.col_category r) (Store.col_description r)
               (Store.col_date r) (Store.col_created_at r) "never")
       [Store.mkRow "r1" (Some "ana") 4550 "groceries" "Weekly shop"
          "2024-01-31" "" ""]
       _ 0 _ _ eq_refl eq_refl eq_refl)) eq_refl)).
Defined.

Section isolation_facts.
Context {number : Type}.
Implicit Types (w : Store.World number) (r : Store.Row number).

(** The rows that user [u2] may read in a table. *)
Lemma visible_as_session w (u2 : string) :
  Store.visible (as_session (Some u2) w)
  = filter (λ r, Store.col_user_id r = Some u2) (Store.table w).
Proof.
  unfold Store.visible, as_session. simpl. apply list_filter_iff.
  intros r. unfold Store.own. simpl.
  destruct (Store.col_user_id r) as [o|]; simpl; [|naive_solver].
  rewrite bool_decide_spec. naive_solver.
Qed.

Lemma own_owner w r (u : string) :
  Store.auth_uid w = Some u →
  Is_true (Store.own w r) ↔ Store.col_user_id r = Some u.
Proof.
  intros Hu. unfold Store.own. rewrite Hu.
  destruct (Store.col_user_id r) as [o|]; simpl; [|naive_solver].
  rewrite bool_decide_spec. naive_solver.
Qed.

Lemma update_rows_others w (u u2 : string) cond set rows rows' :
  Store.auth_uid w = Some u →
  u2 ≠ u →
  StoreWrites.update_rows w cond set rows = inr rows' →
  filter (λ r, Store.col_user_id r = Some u2) rows'
  = filter (λ r, Store.col_user_id r = Some u2) rows.
Proof.
  intros Hu Hne Hup. apply update_rows_inr in Hup.
  induction Hup as [|r r' rows rows' Hr _ IH]; [done|].
  rewrite !filter_cons, IH.
  apply update_row_inr in Hr as [[_ ->]|(Hc & -> & Hown)]; [done|].
  apply andb_true_iff in Hc as [Hc _].
  apply (own_owner w _ u Hu) in Hown.
  assert (Store.col_user_id r = Some u) as Hr
    by (apply (own_owner w r u Hu); by rewrite Hc).
  rewrite !decide_False; [done|congruence|congruence].
Qed.
End isolation_facts.

(** X15: what one user writes never changes what another user may read:
    after a create request, a [DELETE] or an accepted [UPDATE] in the
    session of user [u], the rows visible to any other user are the same
    rows in the same order. *)
Theorem writes_invisible_to_others {number : Type}
    (w : Store.World number) (u u2 : string) :
  Store.auth_uid w = Some u →
  u2 ≠ u →
  (∀ p, Store.visible (as_session (Some u2) (Store.insert w [p]).2)
        = Store.visible (as_session (Some u2) w))
  ∧ (∀ cond, Store.visible (as_session (Some u2) (StoreWrites.delete w cond))
             = Store.visible (as_session (Some u2) w))
  ∧ (∀ cond set rows',
       StoreWrites.update_rows w cond set (Store.table w) = inr rows' →
       Store.visible
         (as_session (Some u2)
            (Store.mkWorld rows' (Store.auth_uid w) (Store.fault w)
               (Store.server_now w) (Store.gen_random_uuid w)))
       = Store.visible (as_session (Some u2) w)).
Proof.
  intros Hu Hne. split; [|split].
  - intros p. rewrite !visible_as_session. unfold Store.insert.
    destruct (Store.fault w); [done|]. simpl.
    destruct (Store.insert_row w p) as [e|NEW] eqn:Hins; [done|]. simpl.
    rewrite filter_app, filter_cons, filter_nil.
    apply insert_row_owner in Hins. rewrite Hu in Hins.
    rewrite decide_False by congruence. apply app_nil_r.
  - intros cond. rewrite !visible_as_session. unfold StoreWrites.delete. simpl.
    rewrite list_filter_filter. apply list_filter_iff. intros r.
    split; [tauto|]. intros Hr. split; [done|].
    intros [Hown _]%Is_true_true%andb_true_iff.
    apply Is_true_true, (own_owner w r u Hu) in Hown. congruence.
  - intros cond set rows' Hup. rewrite !visible_as_session. simpl.
    by apply (update_rows_others w u u2 cond set).
Qed.

Lemma writes_invisible_to_others_witness :
  Store.visible
    (as_session (Some "ben")
       (StoreWrites.delete january_world (λ _, true)))
  = [Store.mkRow "r3" (Some "ben") 9900 "gas" "Heating" "2024-01-15" "" ""].
Proof.
  rewrite (proj1 (proj2 (writes_invisible_to_others january_world "ana" "ben"
                           eq_refl ltac:(discriminate)))).
  reflexivity.
Defined.

(** ** The entry dialog around a submission *)

(** X16: without the two environment variables a submission sends
    nothing: it only shows the configuration message, keeps every field
    and the loading flag as they were, and the submit button stays
    disabled. *)
Theorem unconfigured_submit_only_reports {number : Type}
    (parseFloat : string → number) (st : AddExpenseDialog.State) :
  let r := AddExpenseDialog.handleSubmit_start parseFloat false st in
  trace_of r = [PreventDefault; SetState "AddExpenseDialog" "error"]
  ∧ errorAlert (state_of r)
    = Some "Application is not properly configured. Please contact support."
  ∧ AddExpenseDialog.amount (state_of r) = AddExpenseDialog.amount st
  ∧ AddExpenseDialog.category (state_of r) = AddExpenseDialog.category st
  ∧ AddExpenseDialog.description (state_of r) = AddExpenseDialog.description st
  ∧ AddExpenseDialog.date (state_of r) = AddExpenseDialog.date st
  ∧ AddExpenseDialog.loading (state_of r) = AddExpenseDialog.loading st
  ∧ submitDisabled false (state_of r) = true.
Proof.
  repeat split; try done.
  unfold submitDisabled. apply orb_true_r.
Qed.

(** X17: after a refused submission the form can be sent again as it
    stands: the second request carries the same object as the first, and
    while it is under way the old message is gone and the submit button
    is disabled. *)
Theorem failed_submit_retry_same_payload {number : Type}
    (parseFloat : string → number) (now : JSDate)
    (st : AddExpenseDialog.State) (d : option unit) (m : string) :
  let failure := Supabase.mkResponse d (Some (Supabase.mkError m)) in
  let st1 := state_of (AddExpenseDialog.handleSubmit parseFloat now failure st) in
  let again := AddExpenseDialog.handleSubmit_start parseFloat true st1 in
  AddExpenseDialog.payload parseFloat st1 = AddExpenseDialog.payload parseFloat st
  ∧ trace_of again
    = [PreventDefault;
       SetState "AddExpenseDialog" "loading";
       SetState "AddExpenseDialog" "error";
       StoreInsert [AddExpenseDialog.payload parseFloat st]]
  ∧ errorAlert (state_of again) = None
  ∧ submitDisabled true (state_of again) = true.
Proof. by repeat split. Qed.

(** X18: a submission with a configured client disables the submit button
    from the request to the response and enables it again afterwards,
    whatever the response; a refusal is shown exactly when its message is
    not empty. *)
Theorem submit_button_and_alert {number : Type}
    (parseFloat : string → number) (now : JSDate)
    (st : AddExpenseDialog.State) (r : Supabase.Response unit) (m : string)
    (d : option unit) :
  let failure := Supabase.mkResponse d (Some (Supabase.mkError m)) in
  submitDisabled true
    (state_of (AddExpenseDialog.handleSubmit_start parseFloat true st)) = true
  ∧ errorAlert
      (state_of (AddExpenseDialog.handleSubmit_start parseFloat true st)) = None
  ∧ submitDisabled true
      (state_of (AddExpenseDialog.handleSubmit parseFloat now r st)) = false
  ∧ errorAlert
      (state_of (AddExpenseDialog.handleSubmit parseFloat now failure st))
    = (if decide (m = "") then None else Some m).
Proof.
  repeat split; try done.
  unfold AddExpenseDialog.handleSubmit, AddExpenseDialog.handleSubmit_resume.
  by destruct (Supabase.error r).
Qed.

(** ** The aggregation in exact arithmetic *)

Section exact_aggregation_facts.
Context {number : Type} `{ExactNumber number}.
Implicit Types (l : list (Expense number)).

Lemma of_category_perm c l l' : l ≡ₚ l' → of_category c l ≡ₚ of_category c l'.
Proof. intros Hp. unfold of_category. by rewrite Hp. Qed.

Lemma totalExpenses_perm l l' : l ≡ₚ l' → totalExpenses l = totalExpenses l'.
Proof.
  intros Hp. rewrite !totalExpenses_sum_amounts. by apply sum_amounts_perm.
Qed.
End exact_aggregation_facts.





(** ** Amounts in cents and the closed set of categories *)

Section cents_facts.
Implicit Types (l : list (Expense Z)).

Lemma sum_amounts_cents_nonneg l :
  Forall (λ e, 0 ≤ amount e) l → 0 ≤ sum_amounts l.
Proof.
  induction 1 as [|e l He _ IH]; simpl; [done|].
  change (0 ≤ amount e + sum_amounts l). lia.
Qed.

Lemma sum_amounts_cents_filter (P : Expense Z → Prop) `{∀ e, Decision (P e)} l :
  Forall (λ e, 0 ≤ amount e) l →
  0 ≤ sum_amounts (filter P l) ≤ sum_amounts l.
Proof.
  induction 1 as [|e l He _ IH]; [done|].
  rewrite filter_cons. destruct (decide (P e)); simpl.
  - change (0 ≤ amount e + sum_amounts (filter P l)
            ≤ amount e + sum_amounts l). lia.
  - change (0 ≤ sum_amounts (filter P l) ≤ amount e + sum_amounts l). lia.
Qed.
End cents_facts.



Section category_facts.
Context {number : Type} `{JSNumber number}.

Lemma categoryItems_set :
  dom categoryIcons = (list_to_set categoryItems : gset string)
  ∧ dom categoryColors = (list_to_set categoryItems : gset string).
Proof.
  unfold categoryIcons, categoryColors, categoryItems.
  rewrite !dom_insert_L, !dom_empty_L. simpl. split; set_solver.
Qed.

Lemma expensesByCategory_dom (l : list (Expense number)) :
  dom (expensesByCategory l) = (list_to_set (category <$> l) : gset string).
Proof.
  apply set_eq. intros c.
  rewrite elem_of_dom, expensesByCategory_key, elem_of_list_to_set,
    list_elem_of_fmap.
  split; intros (e & H1 & H2); exists e; by split.
Qed.
End category_facts.

(** X22: every category that the dialog offers has an icon and a colour in
    the Dashboard's tables, and the tables have no other key. *)
Theorem offered_categories_have_icon_and_colour (c : string) :
  (c ∈ categoryItems ↔ is_Some (categoryIcons !! c))
  ∧ (c ∈ categoryItems ↔ is_Some (categoryColors !! c)).
Proof.
  destruct categoryItems_set as [Hi Hc].
  rewrite <- !elem_of_dom, Hi, Hc, elem_of_list_to_set. tauto.
Qed.

(** X23: when every record carries one of the four categories that the
    dialog offers, the Dashboard shows at most four category cards, each
    with an icon. *)
Theorem at_most_four_category_cards {number : Type} `{JSNumber number}
    (l : list (Expense number)) :
  Forall (λ e, category e ∈ categoryItems) l →
  (size (expensesByCategory l) ≤ 4)%nat
  ∧ ∀ c, is_Some (expensesByCategory l !! c) → is_Some (categoryIcons !! c).
Proof.
  intros Hall.
  assert (dom (expensesByCategory l) ⊆ (list_to_set categoryItems : gset string))
    as Hsub.
  { rewrite expensesByCategory_dom. intros c.
    rewrite !elem_of_list_to_set, list_elem_of_fmap.
    intros (e & -> & He). rewrite Forall_forall in Hall. by apply Hall. }
  split.
  - rewrite <- size_dom. apply subseteq_size in Hsub.
    assert (size (list_to_set categoryItems : gset string) = 4%nat) as H4
      by (by vm_compute).
    lia.
  - intros c Hc. apply elem_of_dom. rewrite (proj1 categoryItems_set).
    apply Hsub. by apply elem_of_dom.
Qed.

Lemma at_most_four_category_cards_witness :
  (size (expensesByCategory mixed_run) ≤ 4)%nat.
Proof.
  apply (at_most_four_category_cards mixed_run).
  repeat constructor; set_solver.
Defined.
